(** * BPMCalc: a shallow embedding of [dataprocessor/bpmcalc.py]

    The estimator of [bpmcalc.py] is embedded with explicit state passing.
    numpy's float64 values are idealised as real numbers ([R]); Python
    integers are [Z]; Python lists and one-dimensional arrays are [list];
    a raised exception is a constructor of [result] next to the state the
    call leaves behind.  The numeric collaborators the module imports
    ([derivative], [clean_data], [curve_fit], [np.linalg.lstsq],
    [random.randint], the smoother) are variables of the section
    [Estimator]. *)

From Stdlib Require Import List ZArith Reals Lra Lia Bool.
Import ListNotations.

Set Implicit Arguments.

(** ** Python values *)

(** The exceptions the estimator lets escape to its caller. *)
Inductive exn : Type :=
| AttributeError   (* 'NoneType' object has no attribute 'error' *)
| TypeError.       (* 'NoneType' object is not subscriptable *)

Inductive result (A : Type) : Type :=
| Ok (a : A)
| Raise (e : exn).

Arguments Ok {A} a.
Arguments Raise {A} e.

(** [len(l)] as a Python integer. *)
Definition len {A : Type} (l : list A) : Z := Z.of_nat (length l).

(** Python resolves a slice bound [i] against a sequence of length [n]:
    a negative bound counts from the end, and the result is clamped to
    [0..n]. *)
Definition slice_bound (n i : Z) : Z :=
  if (i <? 0)%Z then Z.max 0 (n + i) else Z.min i n.

(** [l[lo:hi]] with step 1; [None] is an omitted bound. *)
Definition py_slice {A : Type} (lo hi : option Z) (l : list A) : list A :=
  let n := len l in
  let a := match lo with Some i => slice_bound n i | None => 0%Z end in
  let b := match hi with Some i => slice_bound n i | None => n end in
  firstn (Z.to_nat (b - a)) (skipn (Z.to_nat a) l).

(** [l[-1]] on a non-empty list; [d] stands for the IndexError case, which
    the callers below guard against. *)
Definition py_last {A : Type} (l : list A) (d : A) : A := last l d.

(** A 2D point, one row of the position array. *)
Definition coord : Type := (R * R)%type.

(** A parameter vector of [sinfunc], [[amplitude, angular frequency,
    phase, offset]], or one row of a covariance matrix: indices 0..3. *)
Record vec4 : Type := Vec4 { v0 : R; v1 : R; v2 : R; v3 : R }.

(** A 4x4 covariance matrix, by rows. *)
Record mat4 : Type := Mat4 { row0 : vec4; row1 : vec4; row2 : vec4; row3 : vec4 }.

Definition vec4_sub (a b : vec4) : vec4 :=
  Vec4 (v0 a - v0 b) (v1 a - v1 b) (v2 a - v2 b) (v3 a - v3 b).

(** [a - b] on arrays: element by element. *)
Definition mat4_sub (a b : mat4) : mat4 :=
  Mat4 (vec4_sub (row0 a) (row0 b)) (vec4_sub (row1 a) (row1 b))
       (vec4_sub (row2 a) (row2 b)) (vec4_sub (row3 a) (row3 b)).

(** [np.diag(m)] *)
Definition diag (m : mat4) : vec4 :=
  Vec4 (v0 (row0 m)) (v1 (row1 m)) (v2 (row2 m)) (v3 (row3 m)).

(** [p[1] = x] on a parameter array. *)
Definition vec4_set1 (p : vec4) (x : R) : vec4 :=
  Vec4 (v0 p) x (v2 p) (v3 p).

(** [Fit = namedtuple('Fit', ['params', 'error', 'time', 'data'])] *)
Module Fit.
Record t : Type := mk {
  params : vec4;
  error : R;
  time : list R;
  data : list R
}.
End Fit.

(** [BaseSmoother]: [smooth] is applied both to a chunk of positions (a
    two-column array) and to a velocity series. *)
Record BaseSmoother : Type := {
  smooth : list R -> list R;
  smooth_points : list coord -> list coord
}.

(** The attributes of a [BPMCalc] object. *)
Record BPMCalc : Type := mkBPMCalc {
  smoother : BaseSmoother;
  time : list R;
  data : list coord;
  minimum_points : Z;
  maximum_points : Z;
  fit : option Fit.t
}.

Definition set_time (self : BPMCalc) (t : list R) : BPMCalc :=
  mkBPMCalc (smoother self) t (data self)
            (minimum_points self) (maximum_points self) (fit self).

Definition set_data (self : BPMCalc) (d : list coord) : BPMCalc :=
  mkBPMCalc (smoother self) (time self) d
            (minimum_points self) (maximum_points self) (fit self).

Definition set_fit (self : BPMCalc) (f : option Fit.t) : BPMCalc :=
  mkBPMCalc (smoother self) (time self) (data self)
            (minimum_points self) (maximum_points self) f.

(** ** Methods that need no collaborator *)

(** [reset] *)
Definition reset (self : BPMCalc) : BPMCalc :=
  set_fit (set_time (set_data self []) []) None.

(** [send_data] *)
Definition send_data (self : BPMCalc) (t : R) (c : coord) : BPMCalc :=
  if (len (time self) =? 0)%Z
  then set_time (set_data self (data self ++ [c])) (time self ++ [t])
  else if Req_dec_T (py_last (time self) 0%R) t
       then self
       else set_time (set_data self (data self ++ [c])) (time self ++ [t]).

(** [set_frequency]: [self.fit[0][1] = 2 * np.pi * frequency].  The
    parameter array is the one the stored [Fit] refers to, so the
    assignment is seen by every later read of [self.fit]; subscripting
    [None] raises. *)
Definition set_frequency (self : BPMCalc) (frequency : R)
  : result unit * BPMCalc :=
  match fit self with
  | None => (Raise TypeError, self)
  | Some f =>
      (Ok tt,
       set_fit self
         (Some (Fit.mk (vec4_set1 (Fit.params f) (2 * PI * frequency))
                       (Fit.error f) (Fit.time f) (Fit.data f))))
  end.

(** [bpm_from_ang_freq] *)
Definition bpm_from_ang_freq (angular_frequency : R) : R :=
  let freq := (Rabs angular_frequency / (2 * PI))%R in
  (freq * 60)%R.

(** [np.sign] *)
Definition sign (x : R) : R :=
  if Rlt_dec 0 x then 1%R else if Rlt_dec x 0 then (-1)%R else 0%R.

(** [np.linalg.norm] of a 2-vector. *)
Definition norm (v : coord) : R := sqrt (fst v * fst v + snd v * snd v).

(** The last two lines of [lsrl_vector], from the fitted slope [m]. *)
Definition bop_direction (m : R) : coord :=
  let mag := sqrt (1 + m ^ 2) in
  ((sign m / mag)%R, (Rabs m / mag)%R).

(** [project_velocities] *)
Definition project_velocities (data : list coord) (direction : coord) : list R :=
  let elt_wise_product :=
    map (fun v => ((fst v * fst direction)%R, (snd v * snd direction)%R)) data in
  let dots := map (fun product => (0 + fst product + snd product)%R) elt_wise_product in
  map (fun d => (d / norm direction)%R) dots.

(** ** Feeding a stream *)

(** A caller's loop [for t, c in samples: calc.send_data(t, c)]. *)
Definition send_all (self : BPMCalc) (samples : list (R * coord)) : BPMCalc :=
  fold_left (fun s p => send_data s (fst p) (snd p)) samples self.

(** No two consecutive entries are equal. *)
Fixpoint no_repeat (l : list R) : Prop :=
  match l with
  | [] => True
  | a :: tl =>
      match tl with
      | [] => True
      | b :: _ => a <> b /\ no_repeat tl
      end
  end.

(** ** Concrete collaborators

    Instances of the collaborators, used where a property is evaluated on
    a concrete estimator. *)

Definition sum_R (l : list R) : R := fold_right Rplus 0%R l.

(** The slope of the ordinary least-squares line through the points,
    [(n*Sxy - Sx*Sy) / (n*Sxx - Sx*Sx)]: what [np.linalg.lstsq] returns for
    the design matrix of [lsrl_vector] when the abscissas are not all equal. *)

Definition ols_slope (pts : list coord) : R :=
  let n := INR (length pts) in
  let sx := sum_R (map fst pts) in
  let sy := sum_R (map snd pts) in
  let sxy := sum_R (map (fun p => (fst p * snd p)%R) pts) in
  let sxx := sum_R (map (fun p => (fst p * fst p)%R) pts) in
  ((n * sxy - sx * sy) / (n * sxx - sx * sx))%R.

(** A smoother that returns its input. *)
Definition identity_smoother : BaseSmoother :=
  {| smooth := fun l => l; smooth_points := fun l => l |}.

(** A generator whose every draw is the lower bound. *)
Definition lowest_randint (lo hi : Z) (g : unit) : Z * unit := (lo, g).

(** Central differences are not needed to exercise the control flow: the
    velocities are taken to be the positions themselves. *)
Definition positions_as_velocity (t : list R) (d : list coord) : list coord := d.

Definition keep_all (l : list R) : list R := l.

(** An optimizer that exhausts its iteration budget on every input. *)
Definition never_converges (t d : list R) (p0 : vec4) : option (vec4 * mat4) := None.

Definition const_row (x : R) : vec4 := Vec4 x x x x.

Definition const_mat (x : R) : mat4 :=
  Mat4 (const_row x) (const_row x) (const_row x) (const_row x).

(** An optimizer that converges at once: it returns its initial guess,
    with every covariance entry equal to 1. *)
Definition converges_at_guess (t d : list R) (p0 : vec4) : option (vec4 * mat4) :=
  Some (p0, const_mat 1).

(** Ten samples of a head that bobs up and down while it drifts sideways. *)
Definition ten_times : list R := [0; 1; 2; 3; 4; 5; 6; 7; 8; 9]%R.

Definition ten_points : list coord :=
  [(0, 0); (1, 3); (2, 0); (3, -3); (4, 0); (5, 3); (6, 0); (7, -3); (8, 0); (9, 3)]%R.

Definition stored_fit : Fit.t :=
  Fit.mk (Vec4 40 12 1 0) 5 [0; 1; 2]%R [3; 4; 5]%R.

(** The fit an optimizer that stays at the guess of [stored_fit] and
    reports unit covariance yields on the ten samples. *)
Definition refitted : Fit.t :=
  Fit.mk (Vec4 40 12 1 0) 1 ten_times (map snd ten_points).

(** The fit the same optimizer yields from the cold-start guess. *)
Definition first_fit : Fit.t :=
  Fit.mk (Vec4 50 (2 * PI * 116 / 60) 1 0) 1 ten_times (map snd ten_points).

(** The ten samples as a caller sends them. *)
Definition ten_samples : list (R * coord) := combine ten_times ten_points.

(** Enough samples, no fit yet. *)
Definition cold_estimator : BPMCalc :=
  mkBPMCalc identity_smoother ten_times ten_points 10 5000 None.

(** Enough samples and a stored fit. *)
Definition warm_estimator : BPMCalc :=
  mkBPMCalc identity_smoother ten_times ten_points 10 5000 (Some stored_fit).

(** Three samples: below the minimum of ten. *)
Definition short_estimator : BPMCalc :=
  mkBPMCalc identity_smoother [0; 1; 2]%R [(0, 0); (1, 1); (2, 0)]%R 10 5000 None.

(** Three samples in a window of two. *)
Definition small_window_estimator : BPMCalc :=
  mkBPMCalc identity_smoother [1; 2; 3]%R [(0, 1); (0, 2); (0, 3)]%R 1 2 None.

(** ** The estimator *)

Section Estimator.

(** [random]: the generator state and [random.randint(a, b)]. *)
Variable Rng : Type.
Variable randint : Z -> Z -> Rng -> Z * Rng.

(** [dataprocessor.math_utils] *)
Variable derivative : list R -> list coord -> list coord.
Variable clean_data : list R -> list R.

(** [scipy.optimize.curve_fit(sinfunc, xdata, ydata, p0=p0)]: the fitted
    parameters and their covariance, or [None] where scipy raises
    [RuntimeError] because the fit did not converge. *)
Variable curve_fit : list R -> list R -> vec4 -> option (vec4 * mat4).

(** The slope component of [np.linalg.lstsq(A, data[:, 1])[0]]. *)
Variable lstsq_slope : list coord -> R.

(** [DoubleExponential()] *)
Variable DoubleExponential : BaseSmoother.

(** A chunk, [[time_array, position_array]]. *)
Definition sample : Type := (list R * list coord)%type.

(** [__init__] *)
Definition init (smoother : option BaseSmoother) : BPMCalc :=
  mkBPMCalc (match smoother with Some s => s | None => DoubleExponential end)
            [] [] 10 5000 None.

(** [lsrl_vector] *)
Definition lsrl_vector (data : list coord) : coord :=
  bop_direction (lstsq_slope data).

(** [bop_vector_velocity] *)
Definition bop_vector_velocity (time : list R) (data : list coord) : list R :=
  let head_velocity := derivative time data in
  let bop_vector := lsrl_vector data in
  let head_velocity := project_velocities head_velocity bop_vector in
  clean_data head_velocity.

(** [generate_samples]: [num_chunks] chunks of [chunk_length] points from
    a random start.  Both calls in [optimum_fit] pass
    [chunk_length <= len(data)], so [randint] is never given an empty
    range. *)
Fixpoint generate_samples (time : list R) (data : list coord)
         (num_chunks : nat) (chunk_length : Z) (g : Rng) : list sample * Rng :=
  match num_chunks with
  | O => ([], g)
  | S n =>
      let '(i, g1) := randint 0 (len data - chunk_length) g in
      let chunk := (py_slice (Some i) (Some (i + chunk_length)%Z) time,
                    py_slice (Some i) (Some (i + chunk_length)%Z) data) in
      let '(rest, g2) := generate_samples time data n chunk_length g1 in
      (chunk :: rest, g2)
  end.

(** The frequency-parameter variance, [np.diag(pcov)[1]]. *)
Definition freq_variance (pcov : mat4) : R := v1 (diag pcov).

(** [seq[i]] on a two-element list. *)
Definition pick (A : Type) (i : nat) (first second : A) : A :=
  match i with O => first | S _ => second end.

(** [min_index] of [find_fit], from the covariance of the bop-axis fit
    ([pcov[0]]) and of the raw vertical fit ([pcov[1]]). *)
Definition min_index (pcov0 pcov1 : mat4) : nat :=
  if Rlt_dec 0 (v1 (diag (mat4_sub pcov1 pcov0))) then 0%nat else 1%nat.

(** [find_fit]: [None] is the value the method returns after it has
    swallowed a [RuntimeError]. *)
Definition find_fit (self : BPMCalc) (sample : sample) (p0 : vec4)
  : option Fit.t :=
  let velocity_bop := bop_vector_velocity (fst sample) (snd sample) in
  let velocity_raw := clean_data (map snd (derivative (fst sample) (snd sample))) in
  let xdata := py_slice (Some 1%Z) (Some (-1)%Z) (fst sample) in
  match curve_fit xdata
          (py_slice (Some 1%Z) (Some (-1)%Z) (smooth (smoother self) velocity_bop)) p0
  with
  | None => None
  | Some (popt0, pcov0) =>
      match curve_fit xdata
              (py_slice (Some 1%Z) (Some (-1)%Z) (smooth (smoother self) velocity_raw)) p0
      with
      | None => None
      | Some (popt1, pcov1) =>
          let i := min_index pcov0 pcov1 in
          Some (Fit.mk (pick i popt0 popt1)
                       (freq_variance (pick i pcov0 pcov1))
                       (fst sample)
                       (pick i velocity_bop velocity_raw))
      end
  end.

(** [sample[1] = self.smoother.smooth(sample[1])] *)
Definition smoothed (self : BPMCalc) (s : sample) : sample :=
  (fst s, smooth_points (smoother self) (snd s)).

(** One iteration of the loop of [optimum_fit]. *)
Definition consider_sample (self : BPMCalc) (p0 : vec4)
           (optimum_sample : option Fit.t) (s : sample) : option Fit.t :=
  let s := smoothed self s in
  let sample_fit := find_fit self s p0 in
  match optimum_sample with
  | None => sample_fit
  | Some best =>
      match sample_fit with
      | None => optimum_sample
      | Some f =>
          if Rlt_dec (Fit.error f) (Fit.error best) then sample_fit
          else optimum_sample
      end
  end.

(** The loop of [optimum_fit] over the drawn chunks. *)
Definition fit_samples (self : BPMCalc) (p0 : vec4) (samples : list sample)
  : option Fit.t :=
  fold_left (consider_sample self p0) samples None.

(** The chunks [optimum_fit] draws. *)
Definition draw_samples (time : list R) (data : list coord) (g : Rng)
  : list sample * Rng :=
  if (len data <? 50)%Z
  then generate_samples time data 1 (len data) g
  else generate_samples time data 10 50 g.

(** [p0] of [optimum_fit]: amplitude 50, 116 bpm, phase 1, offset 0, or
    the parameter array of the stored fit. *)
Definition initial_guess (self : BPMCalc) : vec4 :=
  match fit self with
  | None => Vec4 50 (2 * PI * 116 / 60) 1 0
  | Some f => Fit.params f
  end.

(** [optimum_fit] *)
Definition optimum_fit (self : BPMCalc) (time : list R) (data : list coord)
           (g : Rng) : option Fit.t * Rng :=
  let '(samples, g') := draw_samples time data g in
  let p0 := initial_guess self in
  (fit_samples self p0 samples, g').

(** The sliding-window cap at the head of [calculate_bpm]. *)
Definition cap_buffers (self : BPMCalc) : BPMCalc :=
  if (len (time self) >? maximum_points self)%Z
  then
    let self := set_time self
                  (py_slice (Some (- maximum_points self)%Z) None (time self)) in
    set_data self (py_slice (Some (- maximum_points self)%Z) None (data self))
  else self.

(** [calculate_bpm]: the value returned or the exception raised, the
    object as the call leaves it, and the generator state. *)
Definition calculate_bpm (self : BPMCalc) (g : Rng)
  : result (option R) * BPMCalc * Rng :=
  if (len (time self) <? minimum_points self)%Z then (Ok None, self, g)
  else
    let self := cap_buffers self in
    let '(new_fit, g) := optimum_fit self (time self) (data self) g in
    match fit self with
    | None =>
        (* [not self.fit] holds: the candidate is stored, then subscripted *)
        let self := set_fit self new_fit in
        match new_fit with
        | None => (Raise TypeError, self, g)
        | Some f => (Ok (Some (bpm_from_ang_freq (v1 (Fit.params f)))), self, g)
        end
    | Some old =>
        match new_fit with
        | None => (Raise AttributeError, self, g)
        | Some f =>
            if Rlt_dec (Fit.error f) (Fit.error old)
            then (Ok (Some (bpm_from_ang_freq (v1 (Fit.params f)))),
                  set_fit self new_fit, g)
            else (Ok (Some (bpm_from_ang_freq (v1 (Fit.params old)))), self, g)
        end
    end.

(** The contract of [random.randint(a, b)] for [a <= b]: an integer of
    the closed range. *)
Definition randint_in_range : Prop :=
  forall (lo hi : Z) (g : Rng),
    (lo <= hi)%Z -> (lo <= fst (randint lo hi g) <= hi)%Z.

(** The objects a caller can obtain: a constructed estimator, and whatever
    its methods leave behind, whether they return or raise. *)
Inductive reachable : BPMCalc -> Prop :=
| reachable_init (sm : option BaseSmoother) : reachable (init sm)
| reachable_reset (self : BPMCalc) :
    reachable self -> reachable (reset self)
| reachable_send_data (self : BPMCalc) (t : R) (c : coord) :
    reachable self -> reachable (send_data self t c)
| reachable_calculate_bpm (self : BPMCalc) (g : Rng) :
    reachable self -> reachable (snd (fst (calculate_bpm self g)))
| reachable_set_frequency (self : BPMCalc) (frequency : R) :
    reachable self -> reachable (snd (set_frequency self frequency)).

(** ** Slices *)

Lemma len_nonneg (A : Type) (l : list A) : (0 <= len l)%Z.
Proof. unfold len. lia. Qed.

(** [l[-k:]] for a positive [k] drops the oldest [len(l) - k] entries. *)
Lemma py_slice_newest (A : Type) (k : Z) (l : list A) :
  (0 < k)%Z ->
  py_slice (Some (- k)%Z) None l = skipn (length l - Z.to_nat k) l.
Proof.
  intros Hk. unfold py_slice, slice_bound.
  assert (Hneg : (- k <? 0)%Z = true) by (apply Z.ltb_lt; lia).
  rewrite Hneg.
  assert (Ha : Z.to_nat (Z.max 0 (len l + - k)) = (length l - Z.to_nat k)%nat)
    by (unfold len; lia).
  rewrite Ha. apply firstn_all2.
  rewrite length_skipn. unfold len. lia.
Qed.

Lemma py_slice_newest_length (A : Type) (k : Z) (l : list A) :
  (0 < k)%Z ->
  len (py_slice (Some (- k)%Z) None l) = Z.min (len l) k.
Proof.
  intros Hk. rewrite py_slice_newest by assumption.
  unfold len. rewrite length_skipn. lia.
Qed.

Lemma py_slice_newest_suffix (A : Type) (k : Z) (l : list A) :
  (0 < k)%Z ->
  l = firstn (length l - Z.to_nat k) l ++ py_slice (Some (- k)%Z) None l.
Proof.
  intros Hk. rewrite py_slice_newest by assumption.
  symmetry. apply firstn_skipn.
Qed.

(** ** What a call leaves in the object *)

(** The buffers after [calculate_bpm], whatever the fit does. *)
Lemma calculate_bpm_buffers (self : BPMCalc) (g : Rng) :
  let self' := snd (fst (calculate_bpm self g)) in
  let seen := if (len (time self) <? minimum_points self)%Z
              then self else cap_buffers self in
  time self' = time seen /\ data self' = data seen /\
  minimum_points self' = minimum_points self /\
  maximum_points self' = maximum_points self /\
  smoother self' = smoother self.
Proof.
  unfold calculate_bpm.
  destruct (len (time self) <? minimum_points self)%Z; cbn zeta.
  - cbn. repeat split.
  - assert (Hcfg : minimum_points (cap_buffers self) = minimum_points self /\
                   maximum_points (cap_buffers self) = maximum_points self /\
                   smoother (cap_buffers self) = smoother self).
    { unfold cap_buffers.
      destruct (len (time self) >? maximum_points self)%Z; cbn; repeat split. }
    destruct Hcfg as (Hmin & Hmax & Hsm).
    destruct (optimum_fit (cap_buffers self) (time (cap_buffers self))
                          (data (cap_buffers self)) g) as [new_fit g'].
    destruct (fit (cap_buffers self)) as [old|]; destruct new_fit as [f|];
      try destruct (Rlt_dec (Fit.error f) (Fit.error old));
      cbn; repeat split; assumption.
Qed.

(** ** Properties of the methods *)

(** C2: with fewer than [minimum_points] stored samples, [calculate_bpm]
    returns [None] (no estimate available) whatever the buffers hold, and
    leaves the object and the random generator as they were. *)
Theorem calculate_bpm_insufficient_data (self : BPMCalc) (g : Rng) :
  (len (time self) < minimum_points self)%Z ->
  calculate_bpm self g = (Ok None, self, g).
Proof.
  intros Hshort. unfold calculate_bpm.
  apply Z.ltb_lt in Hshort. rewrite Hshort. reflexivity.
Qed.

(** C4: on an object whose cap is positive and not below the minimum,
    and whose two buffers are index-aligned, a [calculate_bpm] call that
    starts with more than [maximum_points] samples leaves in both buffers
    exactly the newest [maximum_points] entries, the oldest being dropped;
    and after any call neither buffer is longer than [maximum_points]. *)
Theorem calculate_bpm_caps_buffers (self : BPMCalc) (g : Rng) :
  (0 < maximum_points self)%Z ->
  (minimum_points self <= maximum_points self)%Z ->
  length (time self) = length (data self) ->
  let self' := snd (fst (calculate_bpm self g)) in
  ((len (time self') <= maximum_points self)%Z /\
   (len (data self') <= maximum_points self)%Z) /\
  ((len (time self) > maximum_points self)%Z ->
   exists (old_time : list R) (old_data : list coord),
     time self = old_time ++ time self' /\
     data self = old_data ++ data self' /\
     length old_time = length old_data /\
     len (time self') = maximum_points self /\
     len (data self') = maximum_points self).
Proof.
  intros Hpos Hminmax Hal self'.
  destruct (calculate_bpm_buffers self g) as (Ht & Hd & _).
  fold self' in Ht, Hd.
  assert (Hlen : len (data self) = len (time self)) by (unfold len; congruence).
  split.
  - rewrite Ht, Hd.
    destruct (len (time self) <? minimum_points self)%Z eqn:Hshort.
    + apply Z.ltb_lt in Hshort. lia.
    + unfold cap_buffers.
      destruct (len (time self) >? maximum_points self)%Z eqn:Hbig; cbn.
      * rewrite !py_slice_newest_length by assumption. lia.
      * rewrite Z.gtb_ltb in Hbig. apply Z.ltb_ge in Hbig. lia.
  - intros Hbig.
    assert (Hshort : (len (time self) <? minimum_points self)%Z = false)
      by (apply Z.ltb_ge; lia).
    rewrite Hshort in Ht, Hd.
    assert (Hgt : (len (time self) >? maximum_points self)%Z = true)
      by (rewrite Z.gtb_ltb; apply Z.ltb_lt; lia).
    unfold cap_buffers in Ht, Hd. rewrite Hgt in Ht, Hd. cbn in Ht, Hd.
    exists (firstn (length (time self) - Z.to_nat (maximum_points self)) (time self)),
           (firstn (length (data self) - Z.to_nat (maximum_points self)) (data self)).
    rewrite Ht, Hd.
    repeat split.
    + apply py_slice_newest_suffix; assumption.
    + apply py_slice_newest_suffix; assumption.
    + rewrite !length_firstn. lia.
    + rewrite py_slice_newest_length by assumption. lia.
    + rewrite py_slice_newest_length by assumption. lia.
Qed.

(** C5: [send_data(time, coord)] leaves the object as it is when the time
    buffer is non-empty and [time] is its last entry; otherwise it appends
    [coord] to the positions and [time] to the times; either way buffers
    of equal length stay of equal length.  The method has no failing
    path: it is a total function of the object and its arguments. *)
Theorem send_data_spec (self : BPMCalc) (t : R) (c : coord) :
  (time self <> [] /\ py_last (time self) 0%R = t ->
   send_data self t c = self) /\
  (~ (time self <> [] /\ py_last (time self) 0%R = t) ->
   time (send_data self t c) = time self ++ [t] /\
   data (send_data self t c) = data self ++ [c] /\
   fit (send_data self t c) = fit self) /\
  (length (time self) = length (data self) ->
   length (time (send_data self t c)) = length (data (send_data self t c))).
Proof.
  unfold send_data.
  destruct (len (time self) =? 0)%Z eqn:Hempty.
  - apply Z.eqb_eq in Hempty.
    assert (Hnil : time self = []).
    { destruct (time self); [reflexivity | discriminate]. }
    split; [| split].
    + intros [Hne _]. contradiction.
    + intros _. cbn. auto.
    + intros Hal. cbn. rewrite !length_app. cbn. lia.
  - apply Z.eqb_neq in Hempty.
    assert (Hne : time self <> []).
    { intros Hnil. rewrite Hnil in Hempty. apply Hempty. reflexivity. }
    destruct (Req_dec_T (py_last (time self) 0%R) t) as [Heq | Hneq].
    + split; [| split].
      * intros _. reflexivity.
      * intros Hno. exfalso. apply Hno. split; assumption.
      * intros Hal. exact Hal.
    + split; [| split].
      * intros [_ Heq]. contradiction.
      * intros _. cbn. auto.
      * intros Hal. cbn. rewrite !length_app. cbn. lia.
Qed.

(** Every object a caller can obtain has the constructor's thresholds and
    index-aligned buffers, so the premises of the capping property hold
    for it. *)
Lemma reachable_invariant (self : BPMCalc) :
  reachable self ->
  minimum_points self = 10%Z /\ maximum_points self = 5000%Z /\
  length (time self) = length (data self).
Proof.
  induction 1 as [sm | self _ IH | self t c _ IH | self g _ IH | self fr _ IH].
  - cbn. auto.
  - destruct IH as (Hmin & Hmax & _). cbn. auto.
  - destruct IH as (Hmin & Hmax & Hal). unfold send_data.
    destruct (len (time self) =? 0)%Z;
      [| destruct (Req_dec_T (py_last (time self) 0%R) t)];
      cbn; rewrite ?length_app; cbn; auto.
  - destruct IH as (Hmin & Hmax & Hal).
    destruct (calculate_bpm_buffers self g) as (Ht & Hd & Hmin' & Hmax' & _).
    rewrite Hmin', Hmax', Ht, Hd. split; [assumption |]. split; [assumption |].
    destruct (len (time self) <? minimum_points self)%Z; [assumption |].
    unfold cap_buffers.
    destruct (len (time self) >? maximum_points self)%Z; cbn; [| assumption].
    assert (Hlen : len (py_slice (Some (- maximum_points self)%Z) None (time self))
                   = len (py_slice (Some (- maximum_points self)%Z) None (data self))).
    { rewrite !py_slice_newest_length by lia. unfold len. lia. }
    unfold len in Hlen. lia.
  - destruct IH as (Hmin & Hmax & Hal). unfold set_frequency.
    destruct (fit self); cbn; auto.
Qed.

(** C10: [reset] empties the two buffers and discards the stored fit;
    [minimum_points], [maximum_points] and the smoother are the same
    after the call as before it. *)
Theorem reset_frame (self : BPMCalc) :
  time (reset self) = [] /\
  data (reset self) = [] /\
  fit (reset self) = None /\
  minimum_points (reset self) = minimum_points self /\
  maximum_points (reset self) = maximum_points self /\
  smoother (reset self) = smoother self.
Proof. unfold reset. cbn. repeat split. Qed.

(** ** The fitting loop *)

Local Open Scope R_scope.

Lemma fit_samples_none (self : BPMCalc) (p0 : vec4) (samples : list sample) :
  Forall (fun s => find_fit self (smoothed self s) p0 = None) samples ->
  fit_samples self p0 samples = None.
Proof.
  unfold fit_samples. induction 1 as [| s rest Hs _ IH]; cbn.
  - reflexivity.
  - change (consider_sample self p0 None s)
      with (find_fit self (smoothed self s) p0).
    rewrite Hs. exact IH.
Qed.

Lemma cap_buffers_frame (self : BPMCalc) :
  fit (cap_buffers self) = fit self /\
  smoother (cap_buffers self) = smoother self /\
  minimum_points (cap_buffers self) = minimum_points self /\
  maximum_points (cap_buffers self) = maximum_points self.
Proof.
  unfold cap_buffers.
  destruct (len (time self) >? maximum_points self)%Z; cbn; auto.
Qed.

(** When no drawn chunk yields a fit, [calculate_bpm] does not return:
    it subscripts [None] when there is no stored fit, and reads
    [None.error] when there is one. *)
Lemma calculate_bpm_total_fit_failure (self : BPMCalc) (g : Rng) :
  (minimum_points self <= len (time self))%Z ->
  (let capped := cap_buffers self in
   Forall (fun s => find_fit capped (smoothed capped s) (initial_guess capped) = None)
          (fst (draw_samples (time capped) (data capped) g))) ->
  fst (fst (calculate_bpm self g)) =
    Raise (match fit self with None => TypeError | Some _ => AttributeError end).
Proof.
  intros Hlen Hfail. cbn zeta in Hfail. unfold calculate_bpm.
  apply Z.ltb_ge in Hlen. rewrite Hlen.
  unfold optimum_fit.
  destruct (draw_samples (time (cap_buffers self)) (data (cap_buffers self)) g)
    as [samples g'].
  cbn [fst] in Hfail. rewrite fit_samples_none by exact Hfail.
  destruct (cap_buffers_frame self) as (Hfit & _). rewrite Hfit.
  destruct (fit self); reflexivity.
Qed.

(** A candidate with a strictly smaller error replaces the stored fit. *)
Lemma calculate_bpm_accepts (self : BPMCalc) (g g' : Rng) (f old : Fit.t) :
  (minimum_points self <= len (time self))%Z ->
  optimum_fit (cap_buffers self) (time (cap_buffers self))
              (data (cap_buffers self)) g = (Some f, g') ->
  fit self = Some old ->
  Fit.error f < Fit.error old ->
  calculate_bpm self g =
    (Ok (Some (bpm_from_ang_freq (v1 (Fit.params f)))),
     set_fit (cap_buffers self) (Some f), g').
Proof.
  intros Hlen Hopt Hold Hlt. unfold calculate_bpm.
  apply Z.ltb_ge in Hlen. rewrite Hlen, Hopt.
  destruct (cap_buffers_frame self) as (Hfit & _). rewrite Hfit, Hold.
  destruct (Rlt_dec (Fit.error f) (Fit.error old)); [reflexivity | contradiction].
Qed.

(** A call that returns a BPM leaves a fit in the object, so the call after
    it starts with a stored fit. *)
Lemma calculate_bpm_value_stores_fit
      (self self' : BPMCalc) (g g' : Rng) (bpm : R) :
  calculate_bpm self g = (Ok (Some bpm), self', g') ->
  exists f : Fit.t, fit self' = Some f /\ bpm = bpm_from_ang_freq (v1 (Fit.params f)).
Proof.
  unfold calculate_bpm.
  destruct (len (time self) <? minimum_points self)%Z; [discriminate |].
  destruct (optimum_fit (cap_buffers self) (time (cap_buffers self))
                        (data (cap_buffers self)) g) as [new_fit g1].
  destruct (fit (cap_buffers self)) as [old |] eqn:Hold;
    destruct new_fit as [f |]; try discriminate.
  - destruct (Rlt_dec (Fit.error f) (Fit.error old));
      intros Hcall; injection Hcall as Hbpm Hself _; subst self'.
    + exists f. split; [reflexivity | congruence].
    + exists old. split; [assumption | congruence].
  - intros Hcall; injection Hcall as Hbpm Hself _; subst self'.
    exists f. split; [reflexivity | congruence].
Qed.

(** C3: a [calculate_bpm] call that returns leaves the stored fit as it
    was, or replaces it by the candidate of this call, and it replaces it
    only when there was no stored fit or the candidate's error is
    strictly below the stored one's; so when a fit was stored before
    the call, the error of the stored fit after the call is at most the
    error before it. *)
Theorem calculate_bpm_keeps_better_fit
        (self self' : BPMCalc) (g g' : Rng) (r : option R) :
  calculate_bpm self g = (Ok r, self', g') ->
  (fit self' = fit self \/
   exists cand : Fit.t,
     fst (optimum_fit (cap_buffers self) (time (cap_buffers self))
                      (data (cap_buffers self)) g) = Some cand /\
     fit self' = Some cand /\
     (fit self = None \/
      exists old : Fit.t, fit self = Some old /\ Fit.error cand < Fit.error old)) /\
  (forall old : Fit.t, fit self = Some old ->
     exists new : Fit.t, fit self' = Some new /\ Fit.error new <= Fit.error old).
Proof.
  unfold calculate_bpm.
  destruct (len (time self) <? minimum_points self)%Z.
  - intros Hcall. injection Hcall as _ Hself _. subst self'.
    split; [left; reflexivity |].
    intros old Hold. exists old. split; [assumption | lra].
  - destruct (cap_buffers_frame self) as (Hfit & _).
    destruct (optimum_fit (cap_buffers self) (time (cap_buffers self))
                          (data (cap_buffers self)) g) as [new_fit g1].
    rewrite Hfit. cbn [fst].
    destruct (fit self) as [old|] eqn:Hold; destruct new_fit as [f|];
      try discriminate.
    + destruct (Rlt_dec (Fit.error f) (Fit.error old)) as [Hlt | Hge];
        intros Hcall; injection Hcall as _ Hself _; subst self'; cbn.
      * split.
        -- right. exists f. split; [reflexivity |]. split; [reflexivity |].
           right. exists old. split; [reflexivity | assumption].
        -- intros old' Heq. injection Heq as <-.
           exists f. split; [reflexivity | lra].
      * split; [left; assumption |].
        intros old' Heq. injection Heq as <-.
        exists old. split; [assumption | lra].
    + intros Hcall; injection Hcall as _ Hself _; subst self'; cbn.
      split.
      * right. exists f. split; [reflexivity |]. split; [reflexivity |].
        left. reflexivity.
      * intros old Heq. discriminate.
Qed.

(** C6: when both fits of [find_fit] converge, the bop-axis candidate is
    selected exactly when its frequency-parameter variance is strictly
    below the raw-vertical candidate's, so the raw-vertical candidate
    wins a tie; the returned [Fit] holds the winner's parameters, its
    frequency-parameter variance, the chunk's times and the winner's
    velocity series. *)
Theorem find_fit_selects_smaller_variance
        (self : BPMCalc) (s : sample) (p0 popt0 popt1 : vec4) (pcov0 pcov1 : mat4) :
  let velocity_bop := bop_vector_velocity (fst s) (snd s) in
  let velocity_raw := clean_data (map snd (derivative (fst s) (snd s))) in
  let xdata := py_slice (Some 1%Z) (Some (-1)%Z) (fst s) in
  curve_fit xdata (py_slice (Some 1%Z) (Some (-1)%Z)
                     (smooth (smoother self) velocity_bop)) p0
    = Some (popt0, pcov0) ->
  curve_fit xdata (py_slice (Some 1%Z) (Some (-1)%Z)
                     (smooth (smoother self) velocity_raw)) p0
    = Some (popt1, pcov1) ->
  (min_index pcov0 pcov1 = 0%nat <-> freq_variance pcov0 < freq_variance pcov1) /\
  (freq_variance pcov0 = freq_variance pcov1 -> min_index pcov0 pcov1 = 1%nat) /\
  (min_index pcov0 pcov1 = 0%nat ->
   find_fit self s p0 =
     Some (Fit.mk popt0 (freq_variance pcov0) (fst s) velocity_bop)) /\
  (min_index pcov0 pcov1 <> 0%nat ->
   find_fit self s p0 =
     Some (Fit.mk popt1 (freq_variance pcov1) (fst s) velocity_raw)).
Proof.
  intros velocity_bop velocity_raw xdata Hbop Hraw.
  assert (Hdiff : v1 (diag (mat4_sub pcov1 pcov0))
                  = freq_variance pcov1 - freq_variance pcov0) by reflexivity.
  assert (Hfit : find_fit self s p0 =
                 Some (Fit.mk (pick (min_index pcov0 pcov1) popt0 popt1)
                              (freq_variance (pick (min_index pcov0 pcov1) pcov0 pcov1))
                              (fst s)
                              (pick (min_index pcov0 pcov1) velocity_bop velocity_raw))).
  { unfold find_fit. fold velocity_bop velocity_raw xdata.
    rewrite Hbop, Hraw. reflexivity. }
  unfold min_index in *. rewrite Hdiff in *.
  destruct (Rlt_dec 0 (freq_variance pcov1 - freq_variance pcov0)) as [Hlt | Hge].
  - split; [| split; [| split]].
    + split; intros _; [lra | reflexivity].
    + intros Heq. lra.
    + intros _. exact Hfit.
    + intros Hne. exfalso. apply Hne. reflexivity.
  - split; [| split; [| split]].
    + split; [discriminate | intros Hlt; lra].
    + intros _. reflexivity.
    + discriminate.
    + intros _. exact Hfit.
Qed.

(** C7: when a fit is stored, [set_frequency(f)] returns normally, and in
    the object it leaves the stored fit has the angular-frequency
    parameter [2*pi*f] and everything else as before: amplitude, phase
    and offset, the stored error and the fit's own series; the two
    buffers and the configuration of the object are unchanged too. *)
Theorem set_frequency_frame (self : BPMCalc) (f0 : Fit.t) (frequency : R) :
  fit self = Some f0 ->
  let post := snd (set_frequency self frequency) in
  fst (set_frequency self frequency) = Ok tt /\
  (exists f1 : Fit.t,
     fit post = Some f1 /\
     set_frequency self frequency = (Ok tt, set_fit self (Some f1)) /\
     v1 (Fit.params f1) = 2 * PI * frequency /\
     v0 (Fit.params f1) = v0 (Fit.params f0) /\
     v2 (Fit.params f1) = v2 (Fit.params f0) /\
     v3 (Fit.params f1) = v3 (Fit.params f0) /\
     Fit.error f1 = Fit.error f0 /\
     Fit.time f1 = Fit.time f0 /\
     Fit.data f1 = Fit.data f0) /\
  time post = time self /\
  data post = data self /\
  minimum_points post = minimum_points self /\
  maximum_points post = maximum_points self /\
  smoother post = smoother self.
Proof.
  intros Hfit post. unfold post, set_frequency. rewrite Hfit.
  cbn [fst snd]. split; [reflexivity |]. split.
  - eexists. split; [reflexivity |]. split; [reflexivity |].
    cbn. repeat split.
  - cbn. repeat split.
Qed.

(** C9: the override of [set_frequency(f)] reaches the next estimate.
    In the [calculate_bpm] call that follows it, the optimizer's initial
    guess is the stored parameter vector, whose angular-frequency entry is
    [2*pi*f] whatever frequency had been fitted: the candidate of that call
    is the fitting loop run from this guess, and when the candidate does
    not replace the stored fit the call reports the overridden frequency. *)
Theorem set_frequency_seeds_next_fit
        (self : BPMCalc) (f0 : Fit.t) (frequency : R) (g : Rng) :
  fit self = Some f0 ->
  let self' := snd (set_frequency self frequency) in
  let capped := cap_buffers self' in
  let p0 := Vec4 (v0 (Fit.params f0)) (2 * PI * frequency)
                 (v2 (Fit.params f0)) (v3 (Fit.params f0)) in
  let samples := fst (draw_samples (time capped) (data capped) g) in
  let g' := snd (draw_samples (time capped) (data capped) g) in
  initial_guess capped = p0 /\
  optimum_fit capped (time capped) (data capped) g
    = (fit_samples capped p0 samples, g') /\
  ((minimum_points self <= len (time self))%Z ->
   calculate_bpm self' g =
     match fit_samples capped p0 samples with
     | None => (Raise AttributeError, capped, g')
     | Some f =>
         if Rlt_dec (Fit.error f) (Fit.error f0)
         then (Ok (Some (bpm_from_ang_freq (v1 (Fit.params f)))),
               set_fit capped (Some f), g')
         else (Ok (Some (bpm_from_ang_freq (2 * PI * frequency))), capped, g')
     end).
Proof.
  intros Hfit self' capped p0 samples g'.
  assert (Hstored : fit capped =
                    Some (Fit.mk p0 (Fit.error f0) (Fit.time f0) (Fit.data f0))).
  { unfold capped. destruct (cap_buffers_frame self') as (Hcap & _). rewrite Hcap.
    unfold self', set_frequency. rewrite Hfit. reflexivity. }
  assert (Hguess : initial_guess capped = p0).
  { unfold initial_guess. rewrite Hstored. reflexivity. }
  assert (Hopt : optimum_fit capped (time capped) (data capped) g
                 = (fit_samples capped p0 samples, g')).
  { unfold optimum_fit, samples, g'. rewrite Hguess.
    destruct (draw_samples (time capped) (data capped) g); reflexivity. }
  split; [exact Hguess |]. split; [exact Hopt |].
  intros Hlen. unfold calculate_bpm.
  assert (Hgate : (len (time self') <? minimum_points self')%Z = false).
  { unfold self', set_frequency. rewrite Hfit. cbn. apply Z.ltb_ge. exact Hlen. }
  rewrite Hgate. fold capped. rewrite Hopt, Hstored.
  destruct (fit_samples capped p0 samples) as [f |]; [| reflexivity].
  cbn [Fit.error Fit.params v1].
  destruct (Rlt_dec (Fit.error f) (Fit.error f0)); reflexivity.
Qed.

(** ** The bop axis *)

Lemma sign_sqr (m : R) : m <> 0 -> sign m * sign m = 1.
Proof.
  intros Hm. unfold sign.
  destruct (Rlt_dec 0 m); [lra |].
  destruct (Rlt_dec m 0); lra.
Qed.

Lemma sign_zero : sign 0 = 0.
Proof.
  unfold sign.
  destruct (Rlt_dec 0 0); [lra |].
  destruct (Rlt_dec 0 0); lra.
Qed.

Lemma mag_positive (m : R) : 0 < sqrt (1 + m ^ 2).
Proof. apply sqrt_lt_R0. nra. Qed.

(** For a non-zero slope the direction has unit length. *)
Lemma bop_direction_unit (m : R) : m <> 0 -> norm (bop_direction m) = 1.
Proof.
  intros Hm. unfold norm, bop_direction. cbn [fst snd].
  pose proof (mag_positive m) as Hmag.
  assert (Hsq : sqrt (1 + m ^ 2) * sqrt (1 + m ^ 2) = 1 + m ^ 2)
    by (apply sqrt_sqrt; nra).
  assert (Habs : Rabs m * Rabs m = m ^ 2).
  { unfold Rabs. destruct (Rcase_abs m); ring. }
  pose proof (sign_sqr Hm) as Hsign.
  replace (sign m / sqrt (1 + m ^ 2) * (sign m / sqrt (1 + m ^ 2)) +
           Rabs m / sqrt (1 + m ^ 2) * (Rabs m / sqrt (1 + m ^ 2)))
    with ((sign m * sign m + Rabs m * Rabs m) /
          (sqrt (1 + m ^ 2) * sqrt (1 + m ^ 2)))
    by (field; lra).
  rewrite Hsign, Habs, Hsq.
  replace ((1 + m ^ 2) / (1 + m ^ 2)) with 1 by (field; nra).
  apply sqrt_1.
Qed.

(** The vertical component is never negative. *)
Lemma bop_direction_vertical_nonneg (m : R) : 0 <= snd (bop_direction m).
Proof.
  unfold bop_direction. cbn [snd].
  pose proof (mag_positive m) as Hmag. pose proof (Rabs_pos m) as Habs.
  apply Rmult_le_pos; [assumption |].
  left. apply Rinv_0_lt_compat. assumption.
Qed.

(** For the slope 0 the direction is the zero vector, of length 0. *)
Lemma bop_direction_flat :
  bop_direction 0 = (0, 0) /\ norm (bop_direction 0) = 0.
Proof.
  assert (Hdir : bop_direction 0 = (0, 0)).
  { unfold bop_direction. rewrite sign_zero, Rabs_R0.
    f_equal; unfold Rdiv; ring. }
  split; [exact Hdir |].
  rewrite Hdir. unfold norm. cbn [fst snd].
  replace (0 * 0 + 0 * 0) with 0 by ring. apply sqrt_0.
Qed.

(** ** Chunks *)

Lemma py_slice_window_length (A : Type) (i k : Z) (l : list A) :
  (0 <= k)%Z ->
  (length (py_slice (Some i) (Some (i + k)%Z) l) <= Z.to_nat k)%nat.
Proof.
  intros Hk. unfold py_slice, slice_bound. rewrite length_firstn.
  pose proof (len_nonneg l) as Hn.
  destruct (Z.ltb_spec i 0); destruct (Z.ltb_spec (i + k) 0); lia.
Qed.

Lemma py_slice_window (A : Type) (i k : Z) (l : list A) :
  (0 <= i)%Z -> (0 <= k)%Z -> (i + k <= len l)%Z ->
  py_slice (Some i) (Some (i + k)%Z) l
    = firstn (Z.to_nat k) (skipn (Z.to_nat i) l).
Proof.
  intros Hi Hk Hfit. unfold py_slice, slice_bound.
  destruct (Z.ltb_spec i 0); [lia |].
  destruct (Z.ltb_spec (i + k) 0); [lia |].
  replace (Z.min i (len l)) with i by lia.
  replace (Z.min (i + k) (len l)) with (i + k)%Z by lia.
  replace (i + k - i)%Z with k by lia. reflexivity.
Qed.

Lemma py_slice_whole (A : Type) (n : Z) (l : list A) :
  (len l <= n)%Z -> py_slice (Some 0%Z) (Some (0 + n)%Z) l = l.
Proof.
  intros Hn. unfold py_slice, slice_bound.
  pose proof (len_nonneg l) as Hl.
  destruct (Z.ltb_spec 0 0); [lia |].
  destruct (Z.ltb_spec (0 + n) 0); [lia |].
  replace (Z.min 0 (len l)) with 0%Z by lia.
  replace (Z.min (0 + n) (len l)) with (len l) by lia.
  cbn [Z.to_nat skipn]. apply firstn_all2. unfold len. lia.
Qed.

(** The chunks [generate_samples] yields, by their start indices. *)
Lemma generate_samples_starts
      (time : list R) (data : list coord) (n : nat) (k : Z) (g : Rng) :
  randint_in_range ->
  (k <= len data)%Z ->
  length (fst (generate_samples time data n k g)) = n /\
  Forall (fun c : sample =>
            exists i : Z,
              (0 <= i <= len data - k)%Z /\
              c = (py_slice (Some i) (Some (i + k)%Z) time,
                   py_slice (Some i) (Some (i + k)%Z) data))
         (fst (generate_samples time data n k g)).
Proof.
  intros Hrange Hk. revert g.
  induction n as [| n IH]; intros g; cbn [generate_samples].
  - split; [reflexivity | constructor].
  - pose proof (Hrange 0%Z (len data - k)%Z g) as Hdraw.
    destruct (randint 0 (len data - k) g) as [i g1]. cbn [fst] in Hdraw.
    specialize (IH g1).
    destruct (generate_samples time data n k g1) as [rest g2].
    cbn [fst] in *. destruct IH as [Hcount Hchunks].
    split; [cbn; congruence |].
    constructor; [| exact Hchunks].
    exists i. split; [apply Hdraw; lia | reflexivity].
Qed.

(** X4: when [randint] honours its range, the buffers are index-aligned
    and [0 <= chunk_length <= len(data)], [generate_samples] yields
    exactly [num_chunks] chunks, and each is a window of [chunk_length]
    consecutive entries taken at one start index from both buffers. *)
Theorem generate_samples_windows
        (time : list R) (data : list coord) (n : nat) (k : Z) (g : Rng) :
  randint_in_range ->
  (0 <= k <= len data)%Z ->
  length time = length data ->
  length (fst (generate_samples time data n k g)) = n /\
  Forall (fun c : sample =>
            exists i : nat,
              (i + Z.to_nat k <= length data)%nat /\
              fst c = firstn (Z.to_nat k) (skipn i time) /\
              snd c = firstn (Z.to_nat k) (skipn i data) /\
              length (fst c) = Z.to_nat k /\
              length (snd c) = Z.to_nat k)
         (fst (generate_samples time data n k g)).
Proof.
  intros Hrange [Hk0 Hk] Hal.
  destruct (generate_samples_starts time data n g Hrange Hk) as [Hcount Hstarts].
  split; [exact Hcount |].
  assert (Hlen : len time = len data) by (unfold len; congruence).
  eapply Forall_impl; [| exact Hstarts].
  intros c (i & Hi & ->). exists (Z.to_nat i). cbn [fst snd].
  rewrite !py_slice_window by lia.
  rewrite !length_firstn, !length_skipn.
  unfold len in *. repeat split; lia.
Qed.

(** X6: whatever [randint] returns, [optimum_fit] draws one chunk from a
    buffer of fewer than 50 points and ten otherwise, and no chunk holds
    more than 50 times or 50 positions: the optimizer is run on at most
    ten chunks of at most 50 samples per call. *)
Theorem draw_samples_bounded (time : list R) (data : list coord) (g : Rng) :
  length (fst (draw_samples time data g))
    = (if (len data <? 50)%Z then 1 else 10)%nat /\
  Forall (fun c : sample =>
            (length (fst c) <= 50)%nat /\ (length (snd c) <= 50)%nat)
         (fst (draw_samples time data g)).
Proof.
  assert (Hgen : forall (n : nat) (k : Z) (g0 : Rng),
             (0 <= k <= 50)%Z ->
             length (fst (generate_samples time data n k g0)) = n /\
             Forall (fun c : sample =>
                       (length (fst c) <= 50)%nat /\ (length (snd c) <= 50)%nat)
                    (fst (generate_samples time data n k g0))).
  { intros n k g0 Hk. revert g0.
    induction n as [| n IH]; intros g0; cbn [generate_samples].
    - split; [reflexivity | constructor].
    - destruct (randint 0 (len data - k) g0) as [i g1].
      specialize (IH g1).
      destruct (generate_samples time data n k g1) as [rest g2].
      cbn [fst] in *. destruct IH as [Hcount Hall].
      split; [cbn; congruence |].
      constructor; [| exact Hall]. cbn [fst snd].
      pose proof (py_slice_window_length i time (proj1 Hk)).
      pose proof (py_slice_window_length i data (proj1 Hk)).
      lia. }
  unfold draw_samples. pose proof (len_nonneg data) as Hn.
  destruct (Z.ltb_spec (len data) 50); apply Hgen; lia.
Qed.

(** The single chunk of a short buffer is the buffer. *)
Lemma draw_samples_small (time : list R) (data : list coord) (g : Rng) :
  randint_in_range ->
  (len data < 50)%Z ->
  length time = length data ->
  draw_samples time data g = ([(time, data)], snd (randint 0 0 g)).
Proof.
  intros Hrange Hsmall Hal. unfold draw_samples.
  apply Z.ltb_lt in Hsmall. rewrite Hsmall. cbn [generate_samples].
  rewrite Z.sub_diag.
  pose proof (Hrange 0%Z 0%Z g) as Hdraw.
  destruct (randint 0 0 g) as [i g1]. cbn [fst snd] in *.
  assert (Hi : i = 0%Z) by lia. subst i.
  rewrite !py_slice_whole by (unfold len; lia). reflexivity.
Qed.

(** X5: on an index-aligned buffer of fewer than 50 points, with a
    [randint] that honours its range, [optimum_fit] draws the whole buffer
    as its only chunk, so its candidate is the per-chunk fit of the
    smoothed buffer from the initial guess, whatever the generator state. *)
Theorem optimum_fit_small_buffer
        (self : BPMCalc) (time : list R) (data : list coord) (g : Rng) :
  randint_in_range ->
  (len data < 50)%Z ->
  length time = length data ->
  fst (draw_samples time data g) = [(time, data)] /\
  fst (optimum_fit self time data g)
    = find_fit self (smoothed self (time, data)) (initial_guess self).
Proof.
  intros Hrange Hsmall Hal. unfold optimum_fit.
  rewrite draw_samples_small by assumption.
  split; reflexivity.
Qed.

(** ** The best of the chunks *)

(** One iteration of the loop: what the running best becomes. *)
Lemma consider_sample_step
      (self : BPMCalc) (p0 : vec4) (acc : option Fit.t) (s : sample) :
  (consider_sample self p0 acc s = None <->
   acc = None /\ find_fit self (smoothed self s) p0 = None) /\
  (forall best : Fit.t,
     consider_sample self p0 acc s = Some best ->
     (acc = Some best \/ find_fit self (smoothed self s) p0 = Some best) /\
     (forall a : Fit.t, acc = Some a -> Fit.error best <= Fit.error a) /\
     (forall f : Fit.t, find_fit self (smoothed self s) p0 = Some f ->
                        Fit.error best <= Fit.error f)).
Proof.
  unfold consider_sample. cbn zeta.
  destruct acc as [a |];
    destruct (find_fit self (smoothed self s) p0) as [f |].
  - destruct (Rlt_dec (Fit.error f) (Fit.error a)) as [Hlt | Hge].
    + split; [split; [discriminate | intros [Hn _]; discriminate] |].
      intros best Hbest. injection Hbest as <-.
      split; [right; reflexivity |]. split.
      * intros a' Ha. injection Ha as <-. lra.
      * intros f' Hf. injection Hf as <-. lra.
    + split; [split; [discriminate | intros [Hn _]; discriminate] |].
      intros best Hbest. injection Hbest as <-.
      split; [left; reflexivity |]. split.
      * intros a' Ha. injection Ha as <-. lra.
      * intros f' Hf. injection Hf as <-. lra.
  - split; [split; [discriminate | intros [Hn _]; discriminate] |].
    intros best Hbest. injection Hbest as <-.
    split; [left; reflexivity |]. split.
    + intros a' Ha. injection Ha as <-. lra.
    + intros f' Hf. discriminate.
  - split; [split; [discriminate | intros [_ Hn]; discriminate] |].
    intros best Hbest. injection Hbest as <-.
    split; [right; reflexivity |]. split.
    + intros a' Ha. discriminate.
    + intros f' Hf. injection Hf as <-. lra.
  - split; [split; auto |]. intros best Hbest. discriminate.
Qed.

Lemma fit_loop_best
      (self : BPMCalc) (p0 : vec4) (samples : list sample) (acc : option Fit.t) :
  (fold_left (consider_sample self p0) samples acc = None <->
   acc = None /\
   Forall (fun s => find_fit self (smoothed self s) p0 = None) samples) /\
  (forall best : Fit.t,
     fold_left (consider_sample self p0) samples acc = Some best ->
     (acc = Some best \/
      exists s : sample,
        In s samples /\ find_fit self (smoothed self s) p0 = Some best) /\
     (forall a : Fit.t, acc = Some a -> Fit.error best <= Fit.error a) /\
     (forall (s : sample) (f : Fit.t),
        In s samples -> find_fit self (smoothed self s) p0 = Some f ->
        Fit.error best <= Fit.error f)).
Proof.
  revert acc. induction samples as [| s rest IH]; intros acc.
  - cbn [fold_left]. split.
    + split; [intros ->; split; [reflexivity | constructor] | intros [-> _]; reflexivity].
    + intros best ->. split; [left; reflexivity |]. split.
      * intros a Ha. injection Ha as <-. lra.
      * intros s f [].
  - cbn [fold_left].
    destruct (IH (consider_sample self p0 acc s)) as [IHnone IHsome].
    destruct (consider_sample_step self p0 acc s) as [Snone Ssome].
    split.
    + split.
      * intros Hnone. apply IHnone in Hnone as [Hacc Hrest].
        apply Snone in Hacc as [Hacc Hs].
        split; [exact Hacc | constructor; assumption].
      * intros [Hacc Hall]. inversion Hall as [| ? ? Hs Hrest]; subst.
        apply IHnone. split; [apply Snone; auto | exact Hrest].
    + intros best Hbest.
      destruct (IHsome best Hbest) as (Hfrom & Hacc' & Hrest).
      assert (Hstep : forall mid : Fit.t,
                 consider_sample self p0 acc s = Some mid ->
                 Fit.error best <= Fit.error mid) by exact Hacc'.
      split; [| split].
      * destruct Hfrom as [Hmid | (s' & Hin & Hs')].
        -- destruct (Ssome best Hmid) as ([Hacc | Hs] & _).
           ++ left. exact Hacc.
           ++ right. exists s. split; [left; reflexivity | exact Hs].
        -- right. exists s'. split; [right; exact Hin | exact Hs'].
      * intros a Ha.
        destruct (consider_sample self p0 acc s) as [mid |] eqn:Hmid.
        -- destruct (Ssome mid eq_refl) as (_ & Hle & _).
           specialize (Hle a Ha). specialize (Hstep mid eq_refl). lra.
        -- destruct (proj1 Snone eq_refl) as [Hacc _]. congruence.
      * intros s' f [<- | Hin] Hf.
        -- destruct (consider_sample self p0 acc s) as [mid |] eqn:Hmid.
           ++ destruct (Ssome mid eq_refl) as (_ & _ & Hle).
              specialize (Hle f Hf). specialize (Hstep mid eq_refl). lra.
           ++ destruct (proj1 Snone eq_refl) as [_ Hs]. congruence.
        -- exact (Hrest s' f Hin Hf).
Qed.

(** X7: the loop of [optimum_fit] yields no candidate exactly when the fit
    of every chunk failed; otherwise the candidate is the fit of one of
    the chunks, and no chunk that was fitted has a smaller
    frequency-parameter error. *)
Theorem fit_samples_best
        (self : BPMCalc) (p0 : vec4) (samples : list sample) :
  (fit_samples self p0 samples = None <->
   Forall (fun s => find_fit self (smoothed self s) p0 = None) samples) /\
  (forall best : Fit.t,
     fit_samples self p0 samples = Some best ->
     (exists s : sample,
        In s samples /\ find_fit self (smoothed self s) p0 = Some best) /\
     (forall (s : sample) (f : Fit.t),
        In s samples -> find_fit self (smoothed self s) p0 = Some f ->
        Fit.error best <= Fit.error f)).
Proof.
  unfold fit_samples.
  destruct (fit_loop_best self p0 samples None) as [Hnone Hsome].
  split.
  - split.
    + intros H. apply Hnone in H. apply H.
    + intros H. apply Hnone. split; [reflexivity | exact H].
  - intros best Hbest. destruct (Hsome best Hbest) as ([Hacc | Hin] & _ & Hmin).
    + discriminate.
    + split; [exact Hin | exact Hmin].
Qed.

(** X8: [find_fit] returns [None] exactly when the optimizer fails on the
    bop-axis velocity or on the raw vertical velocity; a [Fit] it returns
    carries the chunk's times, and its error is the smaller of the two
    frequency-parameter variances. *)
Theorem find_fit_result (self : BPMCalc) (s : sample) (p0 : vec4) :
  let velocity_bop := bop_vector_velocity (fst s) (snd s) in
  let velocity_raw := clean_data (map snd (derivative (fst s) (snd s))) in
  let xdata := py_slice (Some 1%Z) (Some (-1)%Z) (fst s) in
  let fit_bop := curve_fit xdata (py_slice (Some 1%Z) (Some (-1)%Z)
                                    (smooth (smoother self) velocity_bop)) p0 in
  let fit_raw := curve_fit xdata (py_slice (Some 1%Z) (Some (-1)%Z)
                                    (smooth (smoother self) velocity_raw)) p0 in
  (find_fit self s p0 = None <-> fit_bop = None \/ fit_raw = None) /\
  (forall f : Fit.t,
     find_fit self s p0 = Some f ->
     Fit.time f = fst s /\
     exists (popt0 popt1 : vec4) (pcov0 pcov1 : mat4),
       fit_bop = Some (popt0, pcov0) /\
       fit_raw = Some (popt1, pcov1) /\
       Fit.error f = Rmin (freq_variance pcov0) (freq_variance pcov1)).
Proof.
  intros velocity_bop velocity_raw xdata fit_bop fit_raw.
  unfold find_fit. fold velocity_bop velocity_raw xdata. fold fit_bop fit_raw.
  destruct fit_bop as [[popt0 pcov0] |]; [| split; [tauto | discriminate]].
  destruct fit_raw as [[popt1 pcov1] |]; [| split; [tauto | discriminate]].
  split.
  - split; [discriminate | intros [H | H]; discriminate].
  - intros f Hf. cbn zeta in Hf. injection Hf as <-. cbn [Fit.time Fit.error].
    split; [reflexivity |].
    exists popt0, popt1, pcov0, pcov1.
    split; [reflexivity |]. split; [reflexivity |].
    unfold min_index.
    change (v1 (diag (mat4_sub pcov1 pcov0)))
      with (freq_variance pcov1 - freq_variance pcov0).
    unfold Rmin.
    destruct (Rlt_dec 0 (freq_variance pcov1 - freq_variance pcov0));
      destruct (Rle_dec (freq_variance pcov0) (freq_variance pcov1));
      cbn [pick]; lra.
Qed.

(** ** Outcomes of [calculate_bpm] *)

(** X9: [calculate_bpm] returns [None] only when the time buffer is
    shorter than [minimum_points]; the call has then changed nothing. *)
Theorem calculate_bpm_none_only_below_minimum
        (self self' : BPMCalc) (g g' : Rng) :
  calculate_bpm self g = (Ok None, self', g') ->
  (len (time self) < minimum_points self)%Z /\ self' = self /\ g' = g.
Proof.
  unfold calculate_bpm.
  destruct (Z.ltb_spec (len (time self)) (minimum_points self)) as [Hlt | Hge].
  - intros Hcall. injection Hcall as <- <-. auto.
  - destruct (optimum_fit (cap_buffers self) (time (cap_buffers self))
                          (data (cap_buffers self)) g) as [new_fit g1].
    destruct (fit (cap_buffers self)) as [old |]; destruct new_fit as [f |];
      try discriminate.
    destruct (Rlt_dec (Fit.error f) (Fit.error old)); discriminate.
Qed.

(** X11: when the buffer has reached [minimum_points] and [optimum_fit]
    returns no candidate, [calculate_bpm] raises TypeError if no fit was
    stored and AttributeError if one was; the object it leaves has the
    stored fit as it was and the buffers as capped, so it can be used
    again. *)
Theorem calculate_bpm_failure_keeps_fit (self : BPMCalc) (g : Rng) :
  (minimum_points self <= len (time self))%Z ->
  fst (optimum_fit (cap_buffers self) (time (cap_buffers self))
                   (data (cap_buffers self)) g) = None ->
  let post := snd (fst (calculate_bpm self g)) in
  fst (fst (calculate_bpm self g))
    = Raise (match fit self with None => TypeError | Some _ => AttributeError end) /\
  fit post = fit self /\
  time post = time (cap_buffers self) /\
  data post = data (cap_buffers self) /\
  snd (calculate_bpm self g)
    = snd (optimum_fit (cap_buffers self) (time (cap_buffers self))
                       (data (cap_buffers self)) g).
Proof.
  intros Hlen Hnone post. unfold post, calculate_bpm.
  apply Z.ltb_ge in Hlen. rewrite Hlen.
  destruct (cap_buffers_frame self) as (Hfit & _).
  destruct (optimum_fit (cap_buffers self) (time (cap_buffers self))
                        (data (cap_buffers self)) g) as [new_fit g1].
  cbn [fst] in Hnone. subst new_fit. rewrite Hfit.
  destruct (fit self) as [old |] eqn:Hold; cbn.
  - rewrite Hfit. auto.
  - auto.
Qed.

(** X12: a [calculate_bpm] call on a time buffer of at most
    [maximum_points] entries leaves both buffers exactly as they were,
    whether it returns or raises: no sample is dropped below the cap. *)
Theorem calculate_bpm_within_cap_keeps_buffers (self : BPMCalc) (g : Rng) :
  (len (time self) <= maximum_points self)%Z ->
  time (snd (fst (calculate_bpm self g))) = time self /\
  data (snd (fst (calculate_bpm self g))) = data self.
Proof.
  intros Hfit.
  destruct (calculate_bpm_buffers self g) as (Ht & Hd & _).
  rewrite Ht, Hd.
  destruct (len (time self) <? minimum_points self)%Z; [split; reflexivity |].
  unfold cap_buffers.
  assert (Hno : (len (time self) >? maximum_points self)%Z = false)
    by (rewrite Z.gtb_ltb; apply Z.ltb_ge; lia).
  rewrite Hno. split; reflexivity.
Qed.

(** ** Invariants of the objects a caller can obtain *)

Lemma reachable_thresholds (self : BPMCalc) :
  reachable self ->
  minimum_points self = 10%Z /\ maximum_points self = 5000%Z.
Proof.
  induction 1 as [sm | self _ IH | self t c _ IH | self g _ IH | self fr _ IH].
  - split; reflexivity.
  - exact IH.
  - unfold send_data.
    destruct (len (time self) =? 0)%Z;
      [| destruct (Req_dec_T (py_last (time self) 0) t)]; exact IH.
  - destruct (calculate_bpm_buffers self g) as (_ & _ & Hmin & Hmax & _).
    rewrite Hmin, Hmax. exact IH.
  - unfold set_frequency. destruct (fit self); exact IH.
Qed.

Lemma no_repeat_skipn (n : nat) (l : list R) :
  no_repeat l -> no_repeat (skipn n l).
Proof.
  revert l. induction n as [| n IH]; intros l Hl; [exact Hl |].
  destruct l as [| a tl]; [exact I |].
  cbn [skipn]. apply IH.
  destruct tl as [| b tl']; [exact I | exact (proj2 Hl)].
Qed.

Lemma no_repeat_snoc (l : list R) (t : R) :
  no_repeat l -> (l = [] \/ last l 0 <> t) -> no_repeat (l ++ [t]).
Proof.
  induction l as [| a tl IH]; intros Hl Hlast; [exact I |].
  destruct tl as [| b tl'].
  - cbn. split; [| exact I].
    destruct Hlast as [Hnil | Hne]; [discriminate | exact Hne].
  - destruct Hl as [Hab Htl].
    change (a <> b /\ no_repeat ((b :: tl') ++ [t])).
    split; [exact Hab |]. apply IH; [exact Htl |].
    right. destruct Hlast as [Hnil | Hne]; [discriminate | exact Hne].
Qed.

Lemma no_repeat_app_inv (l : list R) (t : R) (rest : list R) :
  no_repeat (l ++ t :: rest) ->
  (l = [] \/ last l 0 <> t) /\ no_repeat ((l ++ [t]) ++ rest).
Proof.
  intros Hall. split.
  - induction l as [| a tl IH]; [left; reflexivity |]. right.
    destruct tl as [| b tl'].
    + exact (proj1 Hall).
    + destruct Hall as [_ Htl].
      destruct (IH Htl) as [Hnil | Hne]; [discriminate | exact Hne].
  - rewrite <- app_assoc. exact Hall.
Qed.

(** What [send_data] does to the time buffer. *)
Lemma send_data_time (self : BPMCalc) (t : R) (c : coord) :
  (time (send_data self t c) = time self /\
   data (send_data self t c) = data self /\
   time self <> [] /\ last (time self) 0 = t) \/
  (time (send_data self t c) = time self ++ [t] /\
   data (send_data self t c) = data self ++ [c] /\
   (time self = [] \/ last (time self) 0 <> t)).
Proof.
  unfold send_data, py_last.
  destruct (len (time self) =? 0)%Z eqn:Hempty.
  - right. apply Z.eqb_eq in Hempty.
    assert (Hnil : time self = [])
      by (destruct (time self); [reflexivity | discriminate]).
    cbn. auto.
  - apply Z.eqb_neq in Hempty.
    assert (Hne : time self <> []).
    { intros Hnil. rewrite Hnil in Hempty. apply Hempty. reflexivity. }
    destruct (Req_dec_T (last (time self) 0) t) as [Heq | Hneq].
    + left. auto.
    + right. cbn. auto.
Qed.

Lemma send_data_frame (self : BPMCalc) (t : R) (c : coord) :
  fit (send_data self t c) = fit self /\
  smoother (send_data self t c) = smoother self /\
  minimum_points (send_data self t c) = minimum_points self /\
  maximum_points (send_data self t c) = maximum_points self.
Proof.
  unfold send_data.
  destruct (len (time self) =? 0)%Z;
    [| destruct (Req_dec_T (py_last (time self) 0) t)]; cbn; auto.
Qed.

(** X14: in every object a caller can obtain, no two consecutive entries
    of the time buffer are equal. *)
Theorem reachable_no_repeated_timestamp (self : BPMCalc) :
  reachable self -> no_repeat (time self).
Proof.
  induction 1 as [sm | self _ IH | self t c _ IH | self g Hreach IH | self fr _ IH].
  - exact I.
  - exact I.
  - destruct (send_data_time self t c) as [(Ht & _) | (Ht & _ & Hfresh)];
      rewrite Ht; [exact IH | apply no_repeat_snoc; assumption].
  - destruct (calculate_bpm_buffers self g) as (Ht & _).
    rewrite Ht.
    destruct (len (time self) <? minimum_points self)%Z; [exact IH |].
    unfold cap_buffers.
    destruct (len (time self) >? maximum_points self)%Z; [| exact IH].
    cbn. destruct (reachable_thresholds Hreach) as [_ Hmax].
    rewrite py_slice_newest by lia. apply no_repeat_skipn. exact IH.
  - unfold set_frequency. destruct (fit self); exact IH.
Qed.

(** X15: in every object a caller can obtain, a stored fit comes with at
    least ten samples in the time buffer. *)
Theorem reachable_fit_needs_samples (self : BPMCalc) (f : Fit.t) :
  reachable self -> fit self = Some f -> (10 <= len (time self))%Z.
Proof.
  intros Hreach. revert f.
  induction Hreach
    as [sm | self _ IH | self t c _ IH | self g Hreach IH | self fr _ IH];
    intros f Hfit.
  - discriminate.
  - discriminate.
  - destruct (send_data_frame self t c) as (Hsame & _).
    rewrite Hsame in Hfit. specialize (IH f Hfit).
    destruct (send_data_time self t c) as [(Ht & _) | (Ht & _)]; rewrite Ht.
    + exact IH.
    + unfold len in *. rewrite length_app. cbn. lia.
  - destruct (reachable_thresholds Hreach) as [Hmin Hmax].
    destruct (Z.ltb_spec (len (time self)) (minimum_points self)) as [Hlt | Hge].
    + assert (Hcall : calculate_bpm self g = (Ok None, self, g)).
      { unfold calculate_bpm. apply Z.ltb_lt in Hlt. rewrite Hlt. reflexivity. }
      rewrite Hcall in Hfit |- *. exact (IH f Hfit).
    + destruct (calculate_bpm_buffers self g) as (Ht & _).
      rewrite Ht.
      assert (Hgate : (len (time self) <? minimum_points self)%Z = false)
        by (apply Z.ltb_ge; exact Hge).
      rewrite Hgate. unfold cap_buffers.
      destruct (Z.gtb_spec (len (time self)) (maximum_points self)); cbn.
      * rewrite py_slice_newest_length by lia. lia.
      * lia.
  - unfold set_frequency in *.
    destruct (fit self) as [f0 |] eqn:Hold; cbn in *.
    + exact (IH f0 eq_refl).
    + congruence.
Qed.

(** X16: [reset] takes every object a caller can obtain back to the state
    the constructor gives with the same smoother, so the next
    [calculate_bpm] returns [None]. *)
Theorem reset_restores_initial_state (self : BPMCalc) (g : Rng) :
  reachable self ->
  reset self = init (Some (smoother self)) /\
  calculate_bpm (reset self) g = (Ok None, reset self, g).
Proof.
  intros Hreach. destruct (reachable_thresholds Hreach) as [Hmin Hmax].
  assert (Hreset : reset self = init (Some (smoother self))).
  { unfold reset, init, set_fit, set_time, set_data. cbn.
    rewrite Hmin, Hmax. reflexivity. }
  split; [exact Hreset |].
  rewrite Hreset. reflexivity.
Qed.

(** ** Feeding samples *)

(** X17: a second sample with the timestamp just stored is dropped, also
    when its position differs: sending [(t, c)] and then [(t, c')] leaves
    the object as sending [(t, c)] alone does. *)
Theorem send_data_duplicate_dropped (self : BPMCalc) (t : R) (c c' : coord) :
  send_data (send_data self t c) t c' = send_data self t c.
Proof.
  assert (Hlast : time (send_data self t c) <> [] /\
                  last (time (send_data self t c)) 0 = t).
  { destruct (send_data_time self t c) as [(Ht & _ & Hne & Heq) | (Ht & _)];
      rewrite Ht.
    - split; assumption.
    - split; [destruct (time self); discriminate | apply last_last]. }
  destruct Hlast as [Hne Heq].
  unfold send_data at 1. unfold py_last.
  destruct (len (time (send_data self t c)) =? 0)%Z eqn:Hempty.
  - apply Z.eqb_eq in Hempty.
    destruct (time (send_data self t c)); [contradiction | discriminate].
  - destruct (Req_dec_T (last (time (send_data self t c)) 0) t);
      [reflexivity | contradiction].
Qed.

Lemma send_all_fields (self : BPMCalc) (samples : list (R * coord)) :
  no_repeat (time self ++ map fst samples) ->
  time (send_all self samples) = time self ++ map fst samples /\
  data (send_all self samples) = data self ++ map snd samples /\
  fit (send_all self samples) = fit self /\
  smoother (send_all self samples) = smoother self /\
  minimum_points (send_all self samples) = minimum_points self /\
  maximum_points (send_all self samples) = maximum_points self.
Proof.
  unfold send_all. revert self.
  induction samples as [| [t c] rest IH]; intros self Hfresh.
  - cbn. rewrite !app_nil_r. auto 6.
  - cbn [fold_left map fst snd] in *.
    apply no_repeat_app_inv in Hfresh as [Hnew Hrest].
    destruct (send_data_frame self t c) as (Hfit & Hsm & Hmin & Hmax).
    destruct (send_data_time self t c)
      as [(_ & _ & Hne & Heq) | (Ht & Hd & _)].
    + destruct Hnew as [Hnil | Hdiff]; contradiction.
    + rewrite <- Ht in Hrest.
      destruct (IH (send_data self t c) Hrest) as (It & Id & Ifit & Ism & Imin & Imax).
      rewrite It, Id, Ifit, Ism, Imin, Imax, Ht, Hd, <- !app_assoc.
      cbn. auto 6.
Qed.

(** X18: samples whose timestamps never repeat the one before are all
    stored, in order: the buffers grow by exactly the times and the
    positions sent, and nothing else in the object changes. *)
Theorem send_all_appends (self : BPMCalc) (samples : list (R * coord)) :
  no_repeat (time self ++ map fst samples) ->
  time (send_all self samples) = time self ++ map fst samples /\
  data (send_all self samples) = data self ++ map snd samples /\
  fit (send_all self samples) = fit self /\
  smoother (send_all self samples) = smoother self /\
  minimum_points (send_all self samples) = minimum_points self /\
  maximum_points (send_all self samples) = maximum_points self.
Proof. exact (@send_all_fields self samples). Qed.

Lemma reachable_send_all (self : BPMCalc) (samples : list (R * coord)) :
  reachable self -> reachable (send_all self samples).
Proof.
  unfold send_all. revert self.
  induction samples as [| [t c] rest IH]; intros self Hreach; [exact Hreach |].
  cbn [fold_left fst snd]. apply IH. apply reachable_send_data. exact Hreach.
Qed.

(** The first candidate is stored as it comes. *)
Lemma calculate_bpm_first_fit (self : BPMCalc) (g g' : Rng) (f : Fit.t) :
  (minimum_points self <= len (time self))%Z ->
  optimum_fit (cap_buffers self) (time (cap_buffers self))
              (data (cap_buffers self)) g = (Some f, g') ->
  fit self = None ->
  calculate_bpm self g =
    (Ok (Some (bpm_from_ang_freq (v1 (Fit.params f)))),
     set_fit (cap_buffers self) (Some f), g').
Proof.
  intros Hlen Hopt Hnone. unfold calculate_bpm.
  apply Z.ltb_ge in Hlen. rewrite Hlen, Hopt.
  destruct (cap_buffers_frame self) as (Hfit & _). rewrite Hfit, Hnone.
  reflexivity.
Qed.

(** ** Frequencies *)

(** X1: [bpm_from_ang_freq] does not depend on the sign of the angular
    frequency, is never negative, and grows with the magnitude of the
    angular frequency. *)
Theorem bpm_from_ang_freq_by_magnitude (w w' : R) :
  Rabs w <= Rabs w' ->
  bpm_from_ang_freq w <= bpm_from_ang_freq w' /\
  bpm_from_ang_freq (- w) = bpm_from_ang_freq w /\
  0 <= bpm_from_ang_freq w.
Proof.
  intros Hle. pose proof PI_RGT_0 as Hpi.
  assert (Hinv : 0 < / (2 * PI)) by (apply Rinv_0_lt_compat; lra).
  split; [| split].
  - unfold bpm_from_ang_freq, Rdiv. cbn zeta.
    apply Rmult_le_compat_r; [lra |].
    apply Rmult_le_compat_r; [lra | exact Hle].
  - unfold bpm_from_ang_freq. rewrite Rabs_Ropp. reflexivity.
  - pose proof (Rabs_pos w) as Hw.
    unfold bpm_from_ang_freq, Rdiv. cbn zeta.
    apply Rmult_le_pos; [| lra].
    apply Rmult_le_pos; [exact Hw | lra].
Qed.

(** X3: [set_frequency] returns normally exactly when a fit is stored;
    without one, in particular right after [reset], it raises TypeError
    and leaves the object as it was. *)
Theorem set_frequency_needs_fit (self : BPMCalc) (frequency : R) :
  (fst (set_frequency self frequency) = Ok tt <-> fit self <> None) /\
  (fit self = None ->
   set_frequency self frequency = (Raise TypeError, self)) /\
  set_frequency (reset self) frequency = (Raise TypeError, reset self).
Proof.
  split; [| split].
  - unfold set_frequency. destruct (fit self); cbn.
    + split; [discriminate | reflexivity].
    + split; [discriminate | intros Hne; contradiction].
  - intros Hfit. unfold set_frequency. rewrite Hfit. reflexivity.
  - reflexivity.
Qed.

(** ** Endpoints *)

(** X20: the slice [[1:-1]] that [find_fit] applies to the chunk's times
    and to each velocity series drops exactly the first and the last
    entry, and leaves nothing of a series of at most two entries. *)
Theorem py_slice_drops_endpoints (A : Type) (l : list A) :
  (forall (a z : A) (mid : list A),
     l = a :: mid ++ [z] -> py_slice (Some 1%Z) (Some (-1)%Z) l = mid) /\
  ((length l <= 2)%nat -> py_slice (Some 1%Z) (Some (-1)%Z) l = []).
Proof.
  split.
  - intros a z mid ->. unfold py_slice, slice_bound.
    assert (Hlen : len (a :: mid ++ [z]) = (Z.of_nat (length mid) + 2)%Z).
    { unfold len. cbn [length]. rewrite length_app. cbn [length]. lia. }
    rewrite Hlen.
    destruct (Z.ltb_spec 1 0); [lia |].
    destruct (Z.ltb_spec (-1) 0); [| lia].
    replace (Z.to_nat (Z.min 1 (Z.of_nat (length mid) + 2))) with 1%nat by lia.
    replace (Z.to_nat (Z.max 0 (Z.of_nat (length mid) + 2 + -1)
                       - Z.min 1 (Z.of_nat (length mid) + 2)))
      with (length mid) by lia.
    cbn [skipn]. rewrite firstn_app, firstn_all, Nat.sub_diag. cbn [firstn].
    apply app_nil_r.
  - intros Hshort. unfold py_slice, slice_bound.
    destruct (Z.ltb_spec 1 0); [lia |].
    destruct (Z.ltb_spec (-1) 0); [| lia].
    replace (Z.to_nat (Z.max 0 (len l + -1) - Z.min 1 (len l))) with 0%nat
      by (unfold len; lia).
    reflexivity.
Qed.

Lemma bpm_from_ang_freq_nonneg (w : R) : 0 <= bpm_from_ang_freq w.
Proof.
  pose proof PI_RGT_0 as Hpi. pose proof (Rabs_pos w) as Hw.
  unfold bpm_from_ang_freq. cbn zeta.
  apply Rmult_le_pos; [| lra].
  apply Rmult_le_pos; [exact Hw |].
  left. apply Rinv_0_lt_compat. lra.
Qed.

(** X10: when [calculate_bpm] returns a BPM, the buffer had reached
    [minimum_points], a fit is stored after the call, the value returned
    is the BPM of that stored fit's angular frequency, and it is not
    negative. *)
Theorem calculate_bpm_returns_stored_bpm
        (self self' : BPMCalc) (g g' : Rng) (bpm : R) :
  calculate_bpm self g = (Ok (Some bpm), self', g') ->
  (minimum_points self <= len (time self))%Z /\
  0 <= bpm /\
  exists f : Fit.t,
    fit self' = Some f /\ bpm = bpm_from_ang_freq (v1 (Fit.params f)).
Proof.
  intros Hcall.
  destruct (calculate_bpm_value_stores_fit _ _ Hcall) as (f & Hfit & Hbpm).
  split; [| split].
  - unfold calculate_bpm in Hcall.
    destruct (Z.ltb_spec (len (time self)) (minimum_points self));
      [discriminate | assumption].
  - rewrite Hbpm. apply bpm_from_ang_freq_nonneg.
  - exists f. split; assumption.
Qed.

(** X13: every object a caller can obtain has [minimum_points = 10],
    [maximum_points = 5000] and as many times as positions. *)
Theorem reachable_defaults_and_alignment (self : BPMCalc) :
  reachable self ->
  minimum_points self = 10%Z /\ maximum_points self = 5000%Z /\
  length (time self) = length (data self).
Proof. intros Hreach. exact (reachable_invariant Hreach). Qed.

End Estimator.

(** ** The properties on concrete estimators *)

Local Open Scope R_scope.

Lemma never_converges_find_fit
      (derivative : list R -> list coord -> list coord)
      (clean_data : list R -> list R) (lstsq_slope : list coord -> R)
      (self : BPMCalc) (s : sample) (p0 : vec4) :
  find_fit derivative clean_data never_converges lstsq_slope self s p0 = None.
Proof. reflexivity. Qed.

Lemma ols_slope_flat : ols_slope [(0, 0); (1, 0); (2, 0)] = 0.
Proof.
  unfold ols_slope. cbn [map fst snd sum_R fold_right].
  unfold Rdiv.
  match goal with |- ?num * _ = 0 => replace num with 0 by ring end.
  ring.
Qed.

(** C1: when every fit attempt of a call fails to converge, the call does
    not fall back: on ten samples and an optimizer that never converges,
    [calculate_bpm] raises TypeError when no fit is stored and
    AttributeError when one is. *)
Theorem calculate_bpm_total_failure_raises :
  fst (fst (calculate_bpm lowest_randint positions_as_velocity keep_all
                          never_converges ols_slope cold_estimator tt))
    = Raise TypeError /\
  fst (fst (calculate_bpm lowest_randint positions_as_velocity keep_all
                          never_converges ols_slope warm_estimator tt))
    = Raise AttributeError.
Proof.
  split.
  - apply (calculate_bpm_total_fit_failure lowest_randint positions_as_velocity
             keep_all never_converges ols_slope cold_estimator tt).
    + cbn. lia.
    + cbn zeta. apply Forall_forall. intros s _. apply never_converges_find_fit.
  - apply (calculate_bpm_total_fit_failure lowest_randint positions_as_velocity
             keep_all never_converges ols_slope warm_estimator tt).
    + cbn. lia.
    + cbn zeta. apply Forall_forall. intros s _. apply never_converges_find_fit.
Qed.

(** C8: for points at constant height the fitted slope is 0, and
    [lsrl_vector] returns the zero vector: its length is 0, not 1. *)
Theorem lsrl_vector_flat_not_unit :
  lsrl_vector ols_slope [(0, 0); (1, 0); (2, 0)] = (0, 0) /\
  norm (lsrl_vector ols_slope [(0, 0); (1, 0); (2, 0)]) = 0 /\
  norm (lsrl_vector ols_slope [(0, 0); (1, 0); (2, 0)]) <> 1.
Proof.
  unfold lsrl_vector. rewrite ols_slope_flat.
  destruct bop_direction_flat as [Hdir Hnorm].
  split; [exact Hdir |]. split; [exact Hnorm |].
  rewrite Hnorm. lra.
Qed.

Lemma calculate_bpm_insufficient_data_witness :
  calculate_bpm lowest_randint positions_as_velocity keep_all
                converges_at_guess ols_slope short_estimator tt
    = (Ok None, short_estimator, tt).
Proof.
  apply (calculate_bpm_insufficient_data lowest_randint positions_as_velocity
           keep_all converges_at_guess ols_slope short_estimator tt).
  reflexivity.
Defined.

Lemma min_index_tie (m : mat4) : min_index m m = 1%nat.
Proof.
  unfold min_index. cbn.
  destruct (Rlt_dec 0 (v1 (row1 m) - v1 (row1 m))) as [H | H];
    [lra | reflexivity].
Qed.

(** The candidate of a call on [warm_estimator] with an optimizer that
    converges at its initial guess: the raw vertical velocity wins the tie. *)
Lemma warm_candidate :
  optimum_fit lowest_randint positions_as_velocity keep_all converges_at_guess
              ols_slope (cap_buffers warm_estimator)
              (time (cap_buffers warm_estimator))
              (data (cap_buffers warm_estimator)) tt
  = (Some refitted, tt).
Proof.
  change (cap_buffers warm_estimator) with warm_estimator.
  unfold optimum_fit, draw_samples.
  change (len (data warm_estimator) <? 50)%Z with true. cbv iota.
  cbn [generate_samples lowest_randint].
  change (py_slice (Some 0%Z) (Some (0 + len (data warm_estimator))%Z)
                   (time warm_estimator)) with ten_times.
  change (py_slice (Some 0%Z) (Some (0 + len (data warm_estimator))%Z)
                   (data warm_estimator)) with ten_points.
  unfold fit_samples. cbn [fold_left].
  unfold consider_sample, find_fit, converges_at_guess.
  rewrite min_index_tie. reflexivity.
Qed.

Lemma warm_call :
  calculate_bpm lowest_randint positions_as_velocity keep_all converges_at_guess
                ols_slope warm_estimator tt
  = (Ok (Some (bpm_from_ang_freq 12)), set_fit warm_estimator (Some refitted), tt).
Proof.
  change (calculate_bpm lowest_randint positions_as_velocity keep_all
            converges_at_guess ols_slope warm_estimator tt
          = (Ok (Some (bpm_from_ang_freq (v1 (Fit.params refitted)))),
             set_fit (cap_buffers warm_estimator) (Some refitted), tt)).
  apply calculate_bpm_accepts with (old := stored_fit).
  - cbn. lia.
  - exact warm_candidate.
  - reflexivity.
  - cbn. lra.
Qed.

Lemma calculate_bpm_keeps_better_fit_witness :
  let self' := set_fit warm_estimator (Some refitted) in
  (fit self' = fit warm_estimator \/
   exists cand : Fit.t,
     fst (optimum_fit lowest_randint positions_as_velocity keep_all
                      converges_at_guess ols_slope (cap_buffers warm_estimator)
                      (time (cap_buffers warm_estimator))
                      (data (cap_buffers warm_estimator)) tt) = Some cand /\
     fit self' = Some cand /\
     (fit warm_estimator = None \/
      exists old : Fit.t,
        fit warm_estimator = Some old /\ Fit.error cand < Fit.error old)) /\
  (forall old : Fit.t, fit warm_estimator = Some old ->
     exists new : Fit.t, fit self' = Some new /\ Fit.error new <= Fit.error old).
Proof.
  exact (calculate_bpm_keeps_better_fit lowest_randint positions_as_velocity
           keep_all converges_at_guess ols_slope warm_estimator tt warm_call).
Defined.

Lemma calculate_bpm_caps_buffers_witness :
  let self' := snd (fst (calculate_bpm lowest_randint positions_as_velocity
                           keep_all converges_at_guess ols_slope
                           small_window_estimator tt)) in
  ((len (time self') <= 2)%Z /\ (len (data self') <= 2)%Z) /\
  exists (old_time : list R) (old_data : list coord),
    time small_window_estimator = old_time ++ time self' /\
    data small_window_estimator = old_data ++ data self' /\
    length old_time = length old_data /\
    len (time self') = 2%Z /\
    len (data self') = 2%Z.
Proof.
  destruct (calculate_bpm_caps_buffers lowest_randint positions_as_velocity
              keep_all converges_at_guess ols_slope small_window_estimator tt)
    as [Hle Hcap].
  - reflexivity.
  - cbn. lia.
  - reflexivity.
  - split; [exact Hle |]. apply Hcap. reflexivity.
Defined.

Lemma send_data_spec_witness :
  send_data short_estimator 2 (5, 5) = short_estimator /\
  (time (send_data short_estimator 3 (5, 5)) = [0; 1; 2; 3] /\
   data (send_data short_estimator 3 (5, 5)) = [(0, 0); (1, 1); (2, 0); (5, 5)] /\
   fit (send_data short_estimator 3 (5, 5)) = None) /\
  length (time (send_data short_estimator 2 (5, 5)))
    = length (data (send_data short_estimator 2 (5, 5))).
Proof.
  destruct (send_data_spec short_estimator 2 (5, 5)) as (Hdup & _ & Hal).
  destruct (send_data_spec short_estimator 3 (5, 5)) as (_ & Hnew & _).
  split; [| split].
  - apply Hdup. split; [discriminate | reflexivity].
  - apply Hnew. intros [_ Heq]. cbn in Heq. lra.
  - apply Hal. reflexivity.
Defined.

Lemma find_fit_selects_smaller_variance_witness :
  find_fit positions_as_velocity keep_all converges_at_guess ols_slope
           cold_estimator (ten_times, ten_points) (Vec4 50 1 1 0)
  = Some (Fit.mk (Vec4 50 1 1 0) 1 ten_times (map snd ten_points)).
Proof.
  destruct (find_fit_selects_smaller_variance positions_as_velocity keep_all
              converges_at_guess ols_slope cold_estimator (ten_times, ten_points)
              (Vec4 50 1 1 0) eq_refl eq_refl)
    as (_ & Htie & _ & Hraw).
  apply Hraw. rewrite (Htie eq_refl). discriminate.
Defined.

Lemma set_frequency_frame_witness :
  let post := snd (set_frequency warm_estimator 2) in
  fst (set_frequency warm_estimator 2) = Ok tt /\
  (exists f1 : Fit.t,
     fit post = Some f1 /\
     set_frequency warm_estimator 2 = (Ok tt, set_fit warm_estimator (Some f1)) /\
     v1 (Fit.params f1) = 2 * PI * 2 /\
     v0 (Fit.params f1) = 40 /\
     v2 (Fit.params f1) = 1 /\
     v3 (Fit.params f1) = 0 /\
     Fit.error f1 = 5 /\
     Fit.time f1 = [0; 1; 2] /\
     Fit.data f1 = [3; 4; 5]) /\
  time post = ten_times /\
  data post = ten_points /\
  minimum_points post = 10%Z /\
  maximum_points post = 5000%Z /\
  smoother post = identity_smoother.
Proof.
  exact (set_frequency_frame warm_estimator 2 (f0 := stored_fit) eq_refl).
Defined.

Lemma set_frequency_seeds_next_fit_witness :
  let capped := cap_buffers (snd (set_frequency warm_estimator 2)) in
  let p0 := Vec4 40 (2 * PI * 2) 1 0 in
  let samples := fst (draw_samples lowest_randint (time capped) (data capped) tt) in
  let g' := snd (draw_samples lowest_randint (time capped) (data capped) tt) in
  initial_guess capped = p0 /\
  optimum_fit lowest_randint positions_as_velocity keep_all converges_at_guess
              ols_slope capped (time capped) (data capped) tt
  = (fit_samples positions_as_velocity keep_all converges_at_guess ols_slope
                 capped p0 samples, g') /\
  calculate_bpm lowest_randint positions_as_velocity keep_all converges_at_guess
                ols_slope (snd (set_frequency warm_estimator 2)) tt
  = match fit_samples positions_as_velocity keep_all converges_at_guess
                      ols_slope capped p0 samples with
    | None => (Raise AttributeError, capped, g')
    | Some f =>
        if Rlt_dec (Fit.error f) 5
        then (Ok (Some (bpm_from_ang_freq (v1 (Fit.params f)))),
              set_fit capped (Some f), g')
        else (Ok (Some (bpm_from_ang_freq (2 * PI * 2))), capped, g')
    end.
Proof.
  destruct (set_frequency_seeds_next_fit lowest_randint positions_as_velocity
              keep_all converges_at_guess ols_slope warm_estimator 2 tt
              (f0 := stored_fit) eq_refl)
    as (Hguess & Hopt & Hcall).
  split; [exact Hguess |]. split; [exact Hopt |].
  apply Hcall. cbn. lia.
Defined.

(** ** Further properties on concrete estimators *)

Lemma lowest_randint_in_range : randint_in_range lowest_randint.
Proof. intros lo hi g Hle. cbn. lia. Qed.

Lemma ten_times_no_repeat : no_repeat ([] ++ map fst ten_samples).
Proof.
  cbn [app map fst combine ten_samples ten_times ten_points no_repeat].
  repeat split; lra.
Qed.

(** Sending the ten samples to a new estimator gives [cold_estimator]. *)
Lemma cold_estimator_sent :
  send_all (init identity_smoother None) ten_samples = cold_estimator.
Proof.
  pose proof (@send_all_fields (init identity_smoother None) ten_samples
                ten_times_no_repeat) as (Ht & Hd & Hfit & Hsm & Hmin & Hmax).
  destruct (send_all (init identity_smoother None) ten_samples)
    as [sm t d mn mx ft].
  cbn [time data fit smoother minimum_points maximum_points init] in *.
  subst. reflexivity.
Qed.

Lemma cold_estimator_reachable :
  reachable lowest_randint positions_as_velocity keep_all converges_at_guess
            ols_slope identity_smoother cold_estimator.
Proof.
  rewrite <- cold_estimator_sent.
  apply reachable_send_all. apply reachable_init.
Qed.

Lemma cold_candidate :
  optimum_fit lowest_randint positions_as_velocity keep_all converges_at_guess
              ols_slope (cap_buffers cold_estimator)
              (time (cap_buffers cold_estimator))
              (data (cap_buffers cold_estimator)) tt
  = (Some first_fit, tt).
Proof.
  change (cap_buffers cold_estimator) with cold_estimator.
  unfold optimum_fit, draw_samples.
  change (len (data cold_estimator) <? 50)%Z with true. cbv iota.
  cbn [generate_samples lowest_randint].
  change (py_slice (Some 0%Z) (Some (0 + len (data cold_estimator))%Z)
                   (time cold_estimator)) with ten_times.
  change (py_slice (Some 0%Z) (Some (0 + len (data cold_estimator))%Z)
                   (data cold_estimator)) with ten_points.
  unfold fit_samples. cbn [fold_left].
  unfold consider_sample, find_fit, converges_at_guess.
  rewrite min_index_tie. reflexivity.
Qed.

Lemma cold_call :
  calculate_bpm lowest_randint positions_as_velocity keep_all converges_at_guess
                ols_slope cold_estimator tt
  = (Ok (Some (bpm_from_ang_freq (2 * PI * 116 / 60))),
     set_fit cold_estimator (Some first_fit), tt).
Proof.
  change (calculate_bpm lowest_randint positions_as_velocity keep_all
            converges_at_guess ols_slope cold_estimator tt
          = (Ok (Some (bpm_from_ang_freq (v1 (Fit.params first_fit)))),
             set_fit (cap_buffers cold_estimator) (Some first_fit), tt)).
  apply calculate_bpm_first_fit.
  - cbn. lia.
  - exact cold_candidate.
  - reflexivity.
Qed.

Lemma generate_samples_windows_witness :
  length (fst (generate_samples lowest_randint ten_times ten_points 2 3 tt))
    = 2%nat /\
  Forall (fun c : sample =>
            exists i : nat,
              (i + 3 <= length ten_points)%nat /\
              fst c = firstn 3 (skipn i ten_times) /\
              snd c = firstn 3 (skipn i ten_points) /\
              length (fst c) = 3%nat /\
              length (snd c) = 3%nat)
         (fst (generate_samples lowest_randint ten_times ten_points 2 3 tt)).
Proof.
  apply (generate_samples_windows ten_times ten_points 2 (k := 3) tt
           lowest_randint_in_range).
  - cbn. lia.
  - reflexivity.
Defined.

Lemma optimum_fit_small_buffer_witness :
  fst (draw_samples lowest_randint ten_times ten_points tt)
    = [(ten_times, ten_points)] /\
  fst (optimum_fit lowest_randint positions_as_velocity keep_all
                   converges_at_guess ols_slope cold_estimator
                   ten_times ten_points tt)
    = find_fit positions_as_velocity keep_all converges_at_guess ols_slope
               cold_estimator (smoothed cold_estimator (ten_times, ten_points))
               (initial_guess cold_estimator).
Proof.
  apply (optimum_fit_small_buffer positions_as_velocity keep_all
           converges_at_guess ols_slope cold_estimator ten_times ten_points tt
           lowest_randint_in_range).
  - cbn. lia.
  - reflexivity.
Defined.

Lemma calculate_bpm_none_only_below_minimum_witness :
  (len (time short_estimator) < minimum_points short_estimator)%Z /\
  short_estimator = short_estimator /\ tt = tt.
Proof.
  apply (calculate_bpm_none_only_below_minimum lowest_randint
           positions_as_velocity keep_all converges_at_guess ols_slope
           short_estimator tt (self' := short_estimator) (g' := tt)).
  reflexivity.
Defined.

Lemma calculate_bpm_returns_stored_bpm_witness :
  (minimum_points warm_estimator <= len (time warm_estimator))%Z /\
  0 <= bpm_from_ang_freq 12 /\
  exists f : Fit.t,
    fit (set_fit warm_estimator (Some refitted)) = Some f /\
    bpm_from_ang_freq 12 = bpm_from_ang_freq (v1 (Fit.params f)).
Proof.
  exact (calculate_bpm_returns_stored_bpm lowest_randint positions_as_velocity
           keep_all converges_at_guess ols_slope warm_estimator tt warm_call).
Defined.

Lemma calculate_bpm_within_cap_keeps_buffers_witness :
  time (snd (fst (calculate_bpm lowest_randint positions_as_velocity keep_all
                                never_converges ols_slope cold_estimator tt)))
    = ten_times /\
  data (snd (fst (calculate_bpm lowest_randint positions_as_velocity keep_all
                                never_converges ols_slope cold_estimator tt)))
    = ten_points.
Proof.
  apply (calculate_bpm_within_cap_keeps_buffers lowest_randint
           positions_as_velocity keep_all never_converges ols_slope
           cold_estimator tt).
  cbn. lia.
Defined.

Lemma reachable_defaults_and_alignment_witness :
  minimum_points cold_estimator = 10%Z /\
  maximum_points cold_estimator = 5000%Z /\
  length (time cold_estimator) = length (data cold_estimator).
Proof.
  exact (reachable_defaults_and_alignment cold_estimator_reachable).
Defined.

Lemma reachable_no_repeated_timestamp_witness :
  no_repeat (time cold_estimator).
Proof. exact (reachable_no_repeated_timestamp cold_estimator_reachable). Defined.

Lemma reachable_fit_needs_samples_witness :
  (10 <= len (time (set_fit cold_estimator (Some first_fit))))%Z.
Proof.
  apply (@reachable_fit_needs_samples unit lowest_randint positions_as_velocity
           keep_all converges_at_guess ols_slope identity_smoother
           (set_fit cold_estimator (Some first_fit)) first_fit).
  - change (set_fit cold_estimator (Some first_fit))
      with (snd (fst (Ok (Some (bpm_from_ang_freq (2 * PI * 116 / 60))),
                      set_fit cold_estimator (Some first_fit), tt))).
    rewrite <- cold_call.
    apply reachable_calculate_bpm. exact cold_estimator_reachable.
  - reflexivity.
Defined.

Lemma reset_restores_initial_state_witness :
  reset cold_estimator = init identity_smoother (Some identity_smoother) /\
  calculate_bpm lowest_randint positions_as_velocity keep_all converges_at_guess
                ols_slope (reset cold_estimator) tt
  = (Ok None, reset cold_estimator, tt).
Proof.
  exact (reset_restores_initial_state tt cold_estimator_reachable).
Defined.

Lemma send_all_appends_witness :
  time (send_all (init identity_smoother None) ten_samples)
    = [] ++ map fst ten_samples /\
  data (send_all (init identity_smoother None) ten_samples)
    = [] ++ map snd ten_samples /\
  fit (send_all (init identity_smoother None) ten_samples) = None /\
  smoother (send_all (init identity_smoother None) ten_samples)
    = identity_smoother /\
  minimum_points (send_all (init identity_smoother None) ten_samples) = 10%Z /\
  maximum_points (send_all (init identity_smoother None) ten_samples) = 5000%Z.
Proof.
  exact (@send_all_appends (init identity_smoother None) ten_samples
           ten_times_no_repeat).
Defined.

Lemma warm_no_candidate :
  fst (optimum_fit lowest_randint positions_as_velocity keep_all never_converges
                   ols_slope (cap_buffers warm_estimator)
                   (time (cap_buffers warm_estimator))
                   (data (cap_buffers warm_estimator)) tt) = None.
Proof.
  unfold optimum_fit.
  destruct (draw_samples lowest_randint (time (cap_buffers warm_estimator))
                         (data (cap_buffers warm_estimator)) tt) as [samples g'].
  cbn [fst]. apply fit_samples_none. apply Forall_forall.
  intros s _. apply never_converges_find_fit.
Qed.

Lemma calculate_bpm_failure_keeps_fit_witness :
  let call := calculate_bpm lowest_randint positions_as_velocity keep_all
                            never_converges ols_slope warm_estimator tt in
  fst (fst call) = Raise AttributeError /\
  fit (snd (fst call)) = Some stored_fit /\
  time (snd (fst call)) = time (cap_buffers warm_estimator) /\
  data (snd (fst call)) = data (cap_buffers warm_estimator) /\
  snd call
    = snd (optimum_fit lowest_randint positions_as_velocity keep_all
                       never_converges ols_slope (cap_buffers warm_estimator)
                       (time (cap_buffers warm_estimator))
                       (data (cap_buffers warm_estimator)) tt).
Proof.
  apply (calculate_bpm_failure_keeps_fit lowest_randint positions_as_velocity
           keep_all never_converges ols_slope warm_estimator tt).
  - cbn. lia.
  - exact warm_no_candidate.
Defined.

Lemma bpm_from_ang_freq_by_magnitude_witness :
  bpm_from_ang_freq 1 <= bpm_from_ang_freq (Ropp 2) /\
  bpm_from_ang_freq (Ropp 1) = bpm_from_ang_freq 1 /\
  0 <= bpm_from_ang_freq 1.
Proof.
  apply (@bpm_from_ang_freq_by_magnitude 1 (Ropp 2)).
  rewrite Rabs_Ropp, !Rabs_right by lra. lra.
Defined.
